(** * SDXL prompt styler: template store, lookup and prompt combination

    A shallow embedding of [sdxl_prompt_styler.py].  Python values that come
    out of [json.load] are an inductive type, Python exceptions are an
    explicit result type, and the [str] methods the module calls
    ([replace], [split], [strip], [join], [in], [endswith]) are functions on
    [string].  A [str] is the string of its characters; a character is a
    code point below 256. *)

From Stdlib Require Import ZArith NArith Ascii String List Bool Lia.
From stdpp Require Import base option list strings pretty.

Set Warnings "-register-all".

Local Open Scope string_scope.
Local Open Scope list_scope.

(** ** Python's [str] methods *)

Module Str.

(** [s.startswith(p)] *)
Fixpoint startswith (p s : string) : bool :=
  match p, s with
  | EmptyString, _ => true
  | String _ _, EmptyString => false
  | String a p', String b s' => if Ascii.eqb a b then startswith p' s' else false
  end.

(** [s[n:]] *)
Fixpoint drop (n : nat) (s : string) : string :=
  match n, s with
  | O, _ => s
  | S _, EmptyString => EmptyString
  | S n', String _ s' => drop n' s'
  end.

(** [sub in s] for two strings. *)
Fixpoint contains (sub s : string) : bool :=
  startswith sub s ||
  match s with
  | EmptyString => false
  | String _ s' => contains sub s'
  end.

(** [s.endswith(p)] *)
Definition endswith (p s : string) : bool :=
  startswith p (drop (String.length s - String.length p) s)
  && (String.length p <=? String.length s)%nat.

(** The scan of [s.replace(old, new)] for a non-empty [old]: left to right,
    an occurrence found at the cursor is replaced and the cursor jumps behind
    it ([skip] counts the characters of the occurrence still to jump over). *)
Fixpoint replace_from (old new : string) (skip : nat) (s : string) : string :=
  match s with
  | EmptyString => EmptyString
  | String c s' =>
      match skip with
      | S k => replace_from old new k s'
      | O =>
          if startswith old s
          then new +:+ replace_from old new (String.length old - 1) s'
          else String c (replace_from old new O s')
      end
  end.

(** [new.join(list(s))], what [replace] gives for an empty [old] between
    the characters. *)
Fixpoint interleave (new s : string) : string :=
  match s with
  | EmptyString => EmptyString
  | String c s' => String c (new +:+ interleave new s')
  end.

(** [s.replace(old, new)] *)
Definition replace (old new s : string) : string :=
  match old with
  | EmptyString => new +:+ interleave new s
  | String _ _ => replace_from old new O s
  end.

(** Puts a character in front of the first piece of a split. *)
Definition cons_head (c : ascii) (l : list string) : list string :=
  match l with
  | [] => [String c EmptyString]
  | h :: t => String c h :: t
  end.

(** The scan of [s.split(sep)] for a non-empty [sep]. *)
Fixpoint split_from (sep : string) (skip : nat) (s : string) : list string :=
  match s with
  | EmptyString => [EmptyString]
  | String c s' =>
      match skip with
      | S k => split_from sep k s'
      | O =>
          if startswith sep s
          then EmptyString :: split_from sep (String.length sep - 1) s'
          else cons_head c (split_from sep O s')
      end
  end.

(** [s.split(sep)], [sep] not empty (Python raises ValueError on an empty
    separator; the module only passes literals). *)
Definition split (sep s : string) : list string := split_from sep O s.

(** [s.split(sep, 1)]: at most one cut, at the first occurrence. *)
Fixpoint split1 (sep s : string) : list string :=
  match s with
  | EmptyString => [EmptyString]
  | String c s' =>
      if startswith sep s
      then [EmptyString; drop (String.length sep) s]
      else cons_head c (split1 sep s')
  end.

(** [c.isspace()] for a character below 256: tab, line feed, vertical tab,
    form feed, carriage return, the four separators 28 to 31, space, NEL
    (133) and the no-break space (160). *)
Definition isspace (c : ascii) : bool :=
  let n := nat_of_ascii c in
  ((9 <=? n) && (n <=? 13) || (28 <=? n) && (n <=? 32)
   || (n =? 133) || (n =? 160))%nat.

Fixpoint lstrip (s : string) : string :=
  match s with
  | EmptyString => EmptyString
  | String c s' => if isspace c then lstrip s' else s
  end.

Fixpoint rstrip (s : string) : string :=
  match s with
  | EmptyString => EmptyString
  | String c s' =>
      match rstrip s' with
      | EmptyString => if isspace c then EmptyString else String c EmptyString
      | r => String c r
      end
  end.

(** [s.strip()] *)
Definition strip (s : string) : string := rstrip (lstrip s).

(** [sep.join(l)] *)
Fixpoint join (sep : string) (l : list string) : string :=
  match l with
  | [] => EmptyString
  | [x] => x
  | x :: l' => x +:+ sep +:+ join sep l'
  end.

(** Truth value of a [str]. *)
Definition nonempty (s : string) : bool :=
  match s with EmptyString => false | String _ _ => true end.

End Str.

(** ** Python values, exceptions and the generic operations on them *)

(** What [json.load] returns.  A dict is the list of its items in insertion
    order; numbers are the integers. *)
Inductive value : Type :=
| VNone
| VBool (b : bool)
| VInt (n : Z)
| VStr (s : string)
| VList (l : list value)
| VDict (kv : list (string * value)).

Inductive exn : Type := TypeError | AttributeError | KeyError | ValueError.

Inductive result (A : Type) : Type :=
| Ok (a : A)
| Raise (e : exn).

Arguments Ok {A} a.
Arguments Raise {A} e.

(** Sequencing: an exception ends the run. *)
Definition bind {A B : Type} (r : result A) (k : A -> result B) : result B :=
  match r with
  | Ok a => k a
  | Raise e => Raise e
  end.

Notation "x <- r ;; k" := (bind r (fun x => k))
  (at level 100, r at next level, right associativity).

(** [bool(v)] *)
Definition truthy (v : value) : bool :=
  match v with
  | VNone => false
  | VBool b => b
  | VInt n => negb (n =? 0)%Z
  | VStr s => Str.nonempty s
  | VList l => match l with [] => false | _ :: _ => true end
  | VDict kv => match kv with [] => false | _ :: _ => true end
  end.

(** [v == s] for a [str] [s]. *)
Definition eq_str (v : value) (s : string) : bool :=
  match v with
  | VStr s' => String.eqb s' s
  | _ => false
  end.

Fixpoint dict_lookup (k : string) (kv : list (string * value)) : option value :=
  match kv with
  | [] => None
  | (k', v) :: rest => if String.eqb k' k then Some v else dict_lookup k rest
  end.

Fixpoint dict_store (k : string) (v : value) (kv : list (string * value))
  : list (string * value) :=
  match kv with
  | [] => [(k, v)]
  | (k', v') :: rest =>
      if String.eqb k' k then (k, v) :: rest else (k', v') :: dict_store k v rest
  end.

(** [k in c] for a [str] [k]: a key of a dict, a substring of a str, an
    element of a list; the other values are not containers. *)
Definition py_in (k : string) (c : value) : result bool :=
  match c with
  | VDict kv => Ok (match dict_lookup k kv with Some _ => true | None => false end)
  | VStr s => Ok (Str.contains k s)
  | VList l => Ok (existsb (fun v => eq_str v k) l)
  | VNone | VBool _ | VInt _ => Raise TypeError
  end.

(** [c[k]] for a [str] [k]: only a dict can be indexed by a string. *)
Definition getitem (c : value) (k : string) : result value :=
  match c with
  | VDict kv =>
      match dict_lookup k kv with
      | Some v => Ok v
      | None => Raise KeyError
      end
  | _ => Raise TypeError
  end.

(** [c[k] = v] for a [str] [k]. *)
Definition setitem (c : value) (k : string) (v : value) : result value :=
  match c with
  | VDict kv => Ok (VDict (dict_store k v kv))
  | _ => Raise TypeError
  end.

(** [c.get(k, d)]: a method of dicts only. *)
Definition dict_get (c : value) (k : string) (d : value) : result value :=
  match c with
  | VDict kv => Ok (default d (dict_lookup k kv))
  | _ => Raise AttributeError
  end.

Fixpoint chars (s : string) : list value :=
  match s with
  | EmptyString => []
  | String c s' => VStr (String c EmptyString) :: chars s'
  end.

(** The items a [for] loop over [c] visits: the elements of a list, the
    keys of a dict, the characters of a str. *)
Definition py_iter (c : value) : result (list value) :=
  match c with
  | VList l => Ok l
  | VDict kv => Ok (map (fun p => VStr (fst p)) kv)
  | VStr s => Ok (chars s)
  | VNone | VBool _ | VInt _ => Raise TypeError
  end.

Definition isdict (v : value) : bool :=
  match v with VDict _ => true | _ => false end.

(** Members of a [set]: lists and dicts cannot be hashed. *)
Definition hashable (v : value) : bool :=
  match v with
  | VList _ | VDict _ => false
  | _ => true
  end.

(** Equality of set members: [True == 1] and [False == 0]. *)
Definition key_eq (a b : value) : bool :=
  match a, b with
  | VNone, VNone => true
  | VStr s, VStr t => String.eqb s t
  | VBool x, VBool y => Bool.eqb x y
  | VInt x, VInt y => (x =? y)%Z
  | VBool x, VInt y | VInt y, VBool x => ((if x then 1 else 0) =? y)%Z
  | _, _ => false
  end.

(** [v in seen] for a set [seen], kept as the list of its members. *)
Definition set_in (v : value) (seen : list value) : result bool :=
  if hashable v then Ok (existsb (key_eq v) seen) else Raise TypeError.

(** [for x in l: ...] where the body may raise. *)
Fixpoint mapM {A B : Type} (f : A -> result B) (l : list A) : result (list B) :=
  match l with
  | [] => Ok []
  | x :: l' => y <- f x ;; ys <- mapM f l' ;; Ok (y :: ys)
  end.

(** ** The template files *)

(** A file as the loader sees it: whether [os.access(path, os.R_OK)] holds,
    and what [json.load] returns ([None] when [open] or the parser raises). *)
Record file : Type := {
  readable : bool;
  content : option value
}.

(** An entry of [os.listdir(directory)], in listing order. *)
Record entry : Type := {
  entry_name : string;
  entry_isfile : bool;
  entry_file : file
}.

Definition marker : string := "{prompt}".
Definition separator : string := " . ".

(** ['name' in item and 'prompt' in item and 'negative_prompt' in item] *)
Definition has_all_fields (item : value) : result bool :=
  b <- py_in "name" item ;;
  if b then
    b2 <- py_in "prompt" item ;;
    if b2 then py_in "negative_prompt" item else Ok false
  else Ok false.

(** The [try] block catches every exception, so the outcome is the content
    or [None]. *)
Definition read_json_file (f : file) : option value :=
  if negb (readable f) then None
  else
    match content f with
    | None => None
    | Some c =>
        match items <- py_iter c ;; mapM has_all_fields items with
        | Ok checks => if forallb (fun b : bool => b) checks then Some c else None
        | Raise _ => None
        end
    end.

(** [item['name'] for item in json_data if isinstance(item, dict) and 'name' in item] *)
Fixpoint names_of (items : list value) : list value :=
  match items with
  | [] => []
  | VDict kv :: rest =>
      match dict_lookup "name" kv with
      | Some n => n :: names_of rest
      | None => names_of rest
      end
  | _ :: rest => names_of rest
  end.

Definition read_sdxl_styles (json_data : value) : list value :=
  match json_data with
  | VList l => names_of l
  | _ => []
  end.

Definition get_all_json_files (directory : list entry) : list file :=
  map entry_file
    (List.filter (fun e => Str.endswith ".json" (entry_name e) && entry_isfile e)
       directory).

Definition validate_json_data (json_data : value) : result bool :=
  match json_data with
  | VList l =>
      (fix loop (l : list value) : result bool :=
         match l with
         | [] => Ok true
         | template :: rest =>
             b <- py_in "name" template ;;
             if negb b then Ok false
             else
               b2 <- py_in "prompt" template ;;
               if negb b2 then Ok false else loop rest
         end) l
  | _ => Ok false
  end.

Fixpoint find_in (templates : list value) (template_name : string)
  : result (option value) :=
  match templates with
  | [] => Ok None
  | template :: rest =>
      n <- getitem template "name" ;;
      if eq_str n template_name then Ok (Some template)
      else find_in rest template_name
  end.

Definition find_template_by_name (json_data : value) (template_name : string)
  : result (option value) :=
  templates <- py_iter json_data ;; find_in templates template_name.

(** The declared argument is a [str]; the callers decide what happens to
    another value.  Unpacking [split(" . ", 1)] into two names raises
    ValueError unless there are two pieces. *)
Definition split_template_advanced (template : string) : result (string * string) :=
  if Str.contains separator template then
    match Str.split1 separator template with
    | [template_prompt_g; template_prompt_l] =>
        Ok (Str.strip template_prompt_g, Str.strip template_prompt_l)
    | _ => Raise ValueError
    end
  else Ok (template, EmptyString).

(** [list.remove(x)]: the first occurrence goes. *)
Fixpoint list_remove (x : string) (l : list string) : list string :=
  match l with
  | [] => []
  | y :: rest => if String.eqb y x then rest else y :: list_remove x rest
  end.

(** [x in l] for a list of strings. *)
Definition list_in (x : string) (l : list string) : bool :=
  existsb (String.eqb x) l.

(** The loop over [token_positive_g] that edits [token_positive_l]. *)
Definition deduplicate (token_positive_g token_positive_l : list string)
  : list string :=
  fold_left
    (fun l token_g => if list_in token_g l then list_remove token_g l else l)
    token_positive_g token_positive_l.

Definition tokens (text : string) : list string :=
  map Str.strip (Str.split "," text).

(** [f"{a}, {b}" if ca and cb else a or b] on strings, with the tested
    [ca] apart from the joined [a]. *)
Definition comma_join (ca : bool) (a b : string) : string :=
  if ca && Str.nonempty b then a +:+ ", " +:+ b
  else if Str.nonempty a then a else b.

(** The six strings [replace_prompts_in_template_advanced] returns, in the
    order of the tuple.  The negative ones are whatever the template holds
    when that is not a [str]. *)
Record styled : Type := {
  text_g_positive : string;
  text_l_positive : string;
  text_positive : string;
  text_g_negative : value;
  text_l_negative : value;
  text_negative : value
}.

(** The state of the loader's loops: [combined_data] and the set [seen]. *)
Record loaded : Type := {
  combined_data : list value;
  seen : list value
}.

Section Styler.

(** What an f-string puts for [{v}], Python's [format(v, '')].  On a [str]
    it is the string itself; the rest of it is left open. *)
Variable format : value -> string.

(** [f"{a}, {b}" if a and b else a or b] for the template's
    [negative_prompt] [a] and the user's text [b]. *)
Definition merge_negative (json_negative_prompt : value) (negative_prompt : string)
  : value :=
  if truthy json_negative_prompt && Str.nonempty negative_prompt
  then VStr (format json_negative_prompt +:+ ", " +:+ negative_prompt)
  else if truthy json_negative_prompt then json_negative_prompt
  else VStr negative_prompt.

(** [template['prompt'].replace('{prompt}', positive_prompt)]: only a [str]
    has [replace]. *)
Definition replace_prompts_in_template
  (template : value) (positive_prompt negative_prompt : string)
  : result (string * value) :=
  prompt <- getitem template "prompt" ;;
  positive_result <-
    match prompt with
    | VStr s => Ok (Str.replace marker positive_prompt s)
    | _ => Raise AttributeError
    end ;;
  json_negative_prompt <- dict_get template "negative_prompt" (VStr EmptyString) ;;
  Ok (positive_result, merge_negative json_negative_prompt negative_prompt).

(** [negative_prompt_to in (x, y)] *)
Definition one_of (negative_prompt_to x y : string) : bool :=
  String.eqb negative_prompt_to x || String.eqb negative_prompt_to y.

(** A prompt that is not a [str] never gets through: [" . " in prompt]
    raises TypeError on None, a bool or a number, and a list or a dict has
    neither [split] nor [replace]. *)
Definition replace_prompts_in_template_advanced
  (template : value)
  (positive_prompt_g positive_prompt_l negative_prompt negative_prompt_to : string)
  (copy_to_l : bool) : result styled :=
  prompt <- getitem template "prompt" ;;
  parts <-
    match prompt with
    | VStr s => split_template_advanced s
    | VNone | VBool _ | VInt _ => Raise TypeError
    | VList _ | VDict _ => Raise AttributeError
    end ;;
  let template_prompt_g := fst parts in
  let template_prompt_l_template := snd parts in
  let g_positive := Str.replace marker positive_prompt_g template_prompt_g in
  let l_positive :=
    comma_join (Str.nonempty template_prompt_l_template)
      (Str.replace marker positive_prompt_g template_prompt_l_template)
      positive_prompt_l in
  let l_positive :=
    if copy_to_l && Str.nonempty positive_prompt_g
       && negb (Str.contains marker template_prompt_l_template)
    then
      let token_positive_g := tokens g_positive in
      let token_positive_l := tokens l_positive in
      Str.join ", "
        (token_positive_g ++ deduplicate token_positive_g token_positive_l)
    else l_positive in
  let positive :=
    if Str.nonempty l_positive
    then g_positive +:+ " . " +:+ l_positive
    else g_positive in
  json_negative_prompt <- dict_get template "negative_prompt" (VStr EmptyString) ;;
  let negative := merge_negative json_negative_prompt negative_prompt in
  let g_negative :=
    if one_of negative_prompt_to "Both" "G only" then negative
    else VStr EmptyString in
  let l_negative :=
    if one_of negative_prompt_to "Both" "L only" then negative
    else VStr EmptyString in
  Ok {| text_g_positive := g_positive;
        text_l_positive := l_positive;
        text_positive := positive;
        text_g_negative := g_negative;
        text_l_negative := l_negative;
        text_negative := negative |}.

(** [if template:] after the lookup: [None] and an empty container are
    false. *)
Definition found (template : option value) : option value :=
  match template with
  | Some t => if truthy t then Some t else None
  | None => None
  end.

(** The spec's [combine_basic]. *)
Definition read_sdxl_templates_replace_and_combine
  (json_data : value) (template_name positive_prompt negative_prompt : string)
  : result (string * value) :=
  valid <- validate_json_data json_data ;;
  if negb valid then Ok (positive_prompt, VStr negative_prompt)
  else
    template <- find_template_by_name json_data template_name ;;
    match found template with
    | Some t => replace_prompts_in_template t positive_prompt negative_prompt
    | None => Ok (positive_prompt, VStr negative_prompt)
    end.

Definition pass_through (positive_prompt_g positive_prompt_l negative_prompt : string)
  : styled :=
  {| text_g_positive := positive_prompt_g;
     text_l_positive := positive_prompt_l;
     text_positive := positive_prompt_g +:+ " . " +:+ positive_prompt_l;
     text_g_negative := VStr negative_prompt;
     text_l_negative := VStr negative_prompt;
     text_negative := VStr negative_prompt |}.

(** The spec's [combine_advanced]. *)
Definition read_sdxl_templates_replace_and_combine_advanced
  (json_data : value)
  (template_name positive_prompt_g positive_prompt_l negative_prompt
     negative_prompt_to : string)
  (copy_to_l : bool) : result styled :=
  valid <- validate_json_data json_data ;;
  if negb valid
  then Ok (pass_through positive_prompt_g positive_prompt_l negative_prompt)
  else
    template <- find_template_by_name json_data template_name ;;
    match found template with
    | Some t =>
        replace_prompts_in_template_advanced t positive_prompt_g positive_prompt_l
          negative_prompt negative_prompt_to copy_to_l
    | None => Ok (pass_through positive_prompt_g positive_prompt_l negative_prompt)
    end.

(** [f"{original_style}_{suffix}"] *)
Definition suffixed (original_style : value) (suffix : N) : value :=
  VStr (format original_style +:+ "_" +:+ pretty suffix).

(** The [while style in seen] loop.  [fuel] bounds the number of tests of
    the condition; [None] means the bound was reached. *)
Fixpoint rename (fuel : nat) (seen : list value) (original_style style : value)
  (suffix : N) : option (result value) :=
  match fuel with
  | O => None
  | S fuel' =>
      match set_in style seen with
      | Raise e => Some (Raise e)
      | Ok true =>
          rename fuel' seen original_style (suffixed original_style suffix)
            (suffix + 1)%N
      | Ok false => Some (Ok style)
      end
  end.

(** The body of [for item in json_data]. *)
Definition load_item (fuel : nat) (st : loaded) (item : value)
  : option (result loaded) :=
  match getitem item "name" with
  | Raise e => Some (Raise e)
  | Ok original_style =>
      match rename fuel (seen st) original_style original_style 1%N with
      | None => None
      | Some (Raise e) => Some (Raise e)
      | Some (Ok style) =>
          match setitem item "name" style with
          | Raise e => Some (Raise e)
          | Ok item' =>
              Some (Ok {| combined_data := combined_data st ++ [item'];
                          seen := seen st ++ [style] |})
          end
      end
  end.

Fixpoint load_items (fuel : nat) (st : loaded) (items : list value)
  : option (result loaded) :=
  match items with
  | [] => Some (Ok st)
  | item :: rest =>
      match load_item fuel st item with
      | Some (Ok st') => load_items fuel st' rest
      | other => other
      end
  end.

(** The body of [for json_file in json_files]. *)
Definition load_file (fuel : nat) (st : loaded) (json_file : file)
  : option (result loaded) :=
  match read_json_file json_file with
  | Some json_data =>
      if truthy json_data then
        match py_iter json_data with
        | Ok items => load_items fuel st items
        | Raise e => Some (Raise e)
        end
      else Some (Ok st)
  | None => Some (Ok st)
  end.

Fixpoint load_files (fuel : nat) (st : loaded) (json_files : list file)
  : option (result loaded) :=
  match json_files with
  | [] => Some (Ok st)
  | json_file :: rest =>
      match load_file fuel st json_file with
      | Some (Ok st') => load_files fuel st' rest
      | other => other
      end
  end.

(** The spec's [load_templates]: the store and the list of its names. *)
Definition load_styles_from_directory (fuel : nat) (directory : list entry)
  : option (result (list value * list value)) :=
  match load_files fuel {| combined_data := []; seen := [] |}
          (get_all_json_files directory) with
  | Some (Ok st) => Some (Ok (combined_data st, names_of (combined_data st)))
  | Some (Raise e) => Some (Raise e)
  | None => None
  end.

End Styler.

(** ** The vocabulary of the statements *)

(** No occurrence starts at one of the first [n] positions of [s]. *)
Definition none_before (sub : string) (n : nat) (s : string) : Prop :=
  forall i, i < n -> Str.startswith sub (Str.drop i s) = false.

(** Every character is white space. *)
Fixpoint all_space (s : string) : bool :=
  match s with
  | EmptyString => true
  | String c s' => Str.isspace c && all_space s'
  end.

(** The first, the last character is white space. *)
Definition head_space (s : string) : bool :=
  match s with
  | EmptyString => false
  | String c _ => Str.isspace c
  end.

Fixpoint last_space (s : string) : bool :=
  match s with
  | EmptyString => false
  | String c EmptyString => Str.isspace c
  | String _ s' => last_space s'
  end.

(** [t] is [s] without the white space around it. *)
Definition trimmed (s t : string) : Prop :=
  exists w1 w2, s = w1 +:+ t +:+ w2
    /\ all_space w1 = true /\ all_space w2 = true
    /\ head_space t = false /\ last_space t = false.

(** A record with the two fields the validation asks for. *)
Definition is_template (t : value) : bool :=
  match t with
  | VDict kv =>
      match dict_lookup "name" kv, dict_lookup "prompt" kv with
      | Some _, Some _ => true
      | _, _ => false
      end
  | _ => false
  end.


(** The spec's merge rule, in its words: both non-empty, the two joined by a
    comma and a space; one non-empty, that one; otherwise the empty
    string. *)
Definition merge_rule (a b : string) : string :=
  match a, b with
  | String _ _, String _ _ => a +:+ ", " +:+ b
  | String _ _, EmptyString => a
  | EmptyString, String _ _ => b
  | EmptyString, EmptyString => EmptyString
  end.

(** [format] on the values that are not containers, for the places where
    an instance is needed. *)
Definition format_atom (v : value) : string :=
  match v with
  | VNone => "None"
  | VBool true => "True"
  | VBool false => "False"
  | VInt n => pretty n
  | VStr s => s
  | VList _ | VDict _ => EmptyString
  end.


(** A record with the three fields [read_json_file] asks for. *)
Definition complete_record (t : value) : bool :=
  match t with
  | VDict kv =>
      match dict_lookup "name" kv, dict_lookup "prompt" kv,
            dict_lookup "negative_prompt" kv with
      | Some _, Some _, Some _ => true
      | _, _, _ => false
      end
  | _ => false
  end.

(** A record whose [name] is a [str]. *)
Definition str_named (t : value) : bool :=
  match t with
  | VDict kv =>
      match dict_lookup "name" kv with
      | Some (VStr _) => true
      | _ => false
      end
  | _ => false
  end.

(** The [name] of such a record. *)
Definition name_of (t : value) : string :=
  match t with
  | VDict kv =>
      match dict_lookup "name" kv with
      | Some (VStr n) => n
      | _ => EmptyString
      end
  | _ => EmptyString
  end.

(** The record with its [name] set to [s]. *)
Definition with_name (t : value) (s : string) : value :=
  match t with
  | VDict kv => VDict (dict_store "name" (VStr s) kv)
  | _ => t
  end.

(** The items the loader takes from a file: none from a file it rejects or
    from empty content. *)
Definition file_records (f : file) : list value :=
  match read_json_file f with
  | Some json_data =>
      if truthy json_data then
        match py_iter json_data with
        | Ok items => items
        | Raise _ => []
        end
      else []
  | None => []
  end.

(** The records of the accepted files, in directory-listing order. *)
Definition loaded_records (directory : list entry) : list value :=
  flat_map file_records (get_all_json_files directory).

(** [n_k], the name tried at suffix [k]. *)
Definition suffix_name (n : string) (k : N) : string :=
  n +:+ "_" +:+ pretty k.

(** The spec's collision rule for one template named [n], given the names
    already in the store: the bare name when it is free, otherwise the first
    free [n_k], [k] counting up from 1. *)
Inductive style_for (earlier : list string) (n : string) : string -> Prop :=
| style_bare : ~ In n earlier -> style_for earlier n n
| style_suffixed (k : N) :
    In n earlier ->
    (1 <= k)%N ->
    ~ In (suffix_name n k) earlier ->
    (forall j, (1 <= j < k)%N -> In (suffix_name n j) earlier) ->
    style_for earlier n (suffix_name n k).

(** The rule along the templates in loading order. *)
Inductive renamed : list string -> list string -> list string -> Prop :=
| renamed_nil earlier : renamed earlier [] []
| renamed_cons earlier n s ns ss :
    style_for earlier n s ->
    renamed (earlier ++ [s]) ns ss ->
    renamed earlier (n :: ns) (s :: ss).

(** C3 in the spec's words: the local template with the marker replaced,
    then the merge rule on that text and the positive-local text. *)
Definition claimed_text_l (template_l positive_g positive_l : string) : string :=
  merge_rule (Str.replace marker positive_g template_l) positive_l.

(** C4 in the spec's words: every local token that is among the global
    tokens goes; the global tokens come first, the local ones that are left
    follow. *)
Definition claimed_copy_to_l (text_g text_l : string) : string :=
  let token_g := tokens text_g in
  Str.join ", "
    (token_g ++ List.filter (fun t => negb (list_in t token_g)) (tokens text_l)).

(** A template as the style files have them. *)
Definition template_record (name prompt negative : string) : value :=
  VDict [("name", VStr name); ("prompt", VStr prompt);
         ("negative_prompt", VStr negative)].

(** A readable regular file of the directory with the parsed content
    [json_data]. *)
Definition json_file (name : string) (json_data : value) : entry :=
  {| entry_name := name;
     entry_isfile := true;
     entry_file := {| readable := true; content := Some json_data |} |}.

(** Two style files that both define a template named [A]. *)
Definition two_files : list entry :=
  [json_file "a.json" (VList [template_record "A" "{prompt}" ""]);
   json_file "b.json" (VList [template_record "A" "photo of {prompt}" "blurry"])].

(** A style file whose only template has the empty name. *)
Definition unnamed_file : list entry :=
  [json_file "styles.json" (VList [template_record "" "{prompt}" ""])].

(** A style file whose only record has no [negative_prompt]. *)
Definition short_record : value :=
  VDict [("name", VStr "A"); ("prompt", VStr "{prompt}")].

Definition short_file : entry := json_file "styles.json" (VList [short_record]).

(** ** The basic node and the vocabulary of the further statements *)

Section Nodes.

Variable format : value -> string.

(** [SDXLPromptStyler.prompt_styler], with [self.json_data] as an argument
    and the lines it prints as a third result. *)
Definition prompt_styler (json_data : value)
  (text_positive text_negative style : string)
  (log_prompt style_positive style_negative : bool)
  : result (string * value * list string) :=
  styled <- read_sdxl_templates_replace_and_combine format json_data style
              text_positive text_negative ;;
  let text_positive_styled :=
    if negb style_positive then text_positive else fst styled in
  let text_negative_styled :=
    if negb style_negative then VStr text_negative else snd styled in
  let printed :=
    (if negb style_positive && log_prompt
     then ["style_positive: disabled"] else [])
    ++ (if negb style_negative && log_prompt
        then ["style_negative: disabled"] else [])
    ++ (if log_prompt
        then ["style: " +:+ style;
              "text_positive: " +:+ text_positive;
              "text_negative: " +:+ text_negative;
              "text_positive_styled: " +:+ text_positive_styled;
              "text_negative_styled: " +:+ format text_negative_styled]
        else []) in
  Ok (text_positive_styled, text_negative_styled, printed).

End Nodes.

(** A record with a [name] and a string [prompt]. *)
Definition typed_template (t : value) : bool :=
  match t with
  | VDict kv =>
      match dict_lookup "name" kv, dict_lookup "prompt" kv with
      | Some _, Some (VStr _) => true
      | _, _ => false
      end
  | _ => false
  end.

(** [t'] is the record [t] with some value stored under [name]. *)
Definition name_set (t t' : value) : Prop :=
  exists kv style, t = VDict kv /\ t' = VDict (dict_store "name" style kv).

(** An entry of the directory the loader takes nothing from: not a regular
    [.json] file, a file [read_json_file] rejects, or one whose content is
    empty. *)
Definition skipped (e : entry) : Prop :=
  Str.endswith ".json" (entry_name e) = false
  \/ entry_isfile e = false
  \/ read_json_file (entry_file e) = None
  \/ exists c, read_json_file (entry_file e) = Some c /\ truthy c = false.

(** How often [x] occurs in [l]. *)
Fixpoint count (x : string) (l : list string) : nat :=
  match l with
  | [] => 0
  | y :: rest => (if String.eqb y x then 1 else 0) + count x rest
  end.

(** A file whose only item is a string that contains the three field
    names. *)
Definition string_item_file : list entry :=
  [json_file "styles.json" (VList [VStr "name prompt negative_prompt"])].

(** A directory with a sub-directory, an unreadable file, a file that does
    not parse and a text file around one style file. *)
Definition mixed_directory : list entry :=
  [ {| entry_name := "old.json"; entry_isfile := false;
       entry_file := {| readable := true; content := None |} |};
    {| entry_name := "locked.json"; entry_isfile := true;
       entry_file := {| readable := false; content := Some (VList []) |} |};
    json_file "a.json" (VList [template_record "A" "{prompt}" ""]);
    {| entry_name := "broken.json"; entry_isfile := true;
       entry_file := {| readable := true; content := None |} |};
    json_file "notes.txt" (VList [template_record "B" "{prompt}" ""]) ].

(** Two style files with different names, and the store they give. *)
Definition distinct_files : list entry :=
  [json_file "a.json" (VList [template_record "A" "{prompt}" ""]);
   json_file "b.json" (VList [template_record "B" "photo of {prompt}" "blurry"])].

Definition two_store : list value :=
  [template_record "A" "{prompt}" "";
   template_record "A_1" "photo of {prompt}" "blurry"].

(** A template whose [negative_prompt] is null. *)
Definition null_negative : value :=
  VDict [("name", VStr "s"); ("prompt", VStr "a {prompt}");
         ("negative_prompt", VNone)].

(** A style file whose top level is an object. *)
Definition object_file : entry :=
  json_file "styles.json"
    (VDict [("name prompt negative_prompt", VList [])]).

(** ** Strings of code points *)

(** A [str] as the sequence of its code points, for the one place where
    the characters beyond 255 matter: [strip] takes off every character
    for which [str.isspace] holds. *)
Module UStr.

(** The code points of the characters of a string of characters below 256. *)
Fixpoint codes (s : string) : list N :=
  match s with
  | EmptyString => []
  | String c s' => N_of_ascii c :: codes s'
  end.

Fixpoint startswith (p s : list N) : bool :=
  match p, s with
  | [], _ => true
  | _ :: _, [] => false
  | a :: p', b :: s' => if N.eqb a b then startswith p' s' else false
  end.

Fixpoint contains (sub s : list N) : bool :=
  startswith sub s ||
  match s with
  | [] => false
  | _ :: s' => contains sub s'
  end.

Definition cons_head (c : N) (l : list (list N)) : list (list N) :=
  match l with
  | [] => [[c]]
  | h :: t => (c :: h) :: t
  end.

(** [s.split(sep, 1)] *)
Fixpoint split1 (sep s : list N) : list (list N) :=
  match s with
  | [] => [[]]
  | c :: s' =>
      if startswith sep s
      then [[]; drop (length sep) s]
      else cons_head c (split1 sep s')
  end.

(** The code points Python counts as white space: U+0009 to U+000D, U+001C
    to U+001F, U+0020, U+0085, U+00A0, U+1680, U+2000 to U+200A, U+2028,
    U+2029, U+202F, U+205F and U+3000. *)
Definition whitespace : list N :=
  [9; 10; 11; 12; 13; 28; 29; 30; 31; 32; 133; 160; 5760;
   8192; 8193; 8194; 8195; 8196; 8197; 8198; 8199; 8200; 8201; 8202;
   8232; 8233; 8239; 8287; 12288]%N.

Definition isspace (c : N) : bool := existsb (N.eqb c) whitespace.

Fixpoint lstrip (s : list N) : list N :=
  match s with
  | [] => []
  | c :: s' => if isspace c then lstrip s' else s
  end.

Fixpoint rstrip (s : list N) : list N :=
  match s with
  | [] => []
  | c :: s' =>
      match rstrip s' with
      | [] => if isspace c then [] else [c]
      | r => c :: r
      end
  end.

Definition strip (s : list N) : list N := rstrip (lstrip s).

End UStr.

(** [split_template_advanced] on strings of code points. *)
Definition split_template_advanced_unicode (template : list N)
  : result (list N * list N) :=
  if UStr.contains (UStr.codes separator) template then
    match UStr.split1 (UStr.codes separator) template with
    | [template_prompt_g; template_prompt_l] =>
        Ok (UStr.strip template_prompt_g, UStr.strip template_prompt_l)
    | _ => Raise ValueError
    end
  else Ok (template, []).

(** No occurrence of [sub] starts at one of the first [n] positions. *)
Definition none_before_unicode (sub : list N) (n : nat) (s : list N) : Prop :=
  forall i, i < n -> UStr.startswith sub (drop i s) = false.

(** [t] is [s] without the white space at its two ends: what is cut off is
    white space, and [t] neither begins nor ends with white space. *)
Definition trimmed_unicode (s t : list N) : Prop :=
  exists w1 w2,
    s = w1 ++ t ++ w2
    /\ Forall (fun c => In c UStr.whitespace) w1
    /\ Forall (fun c => In c UStr.whitespace) w2
    /\ (forall c rest, t = c :: rest -> ~ In c UStr.whitespace)
    /\ (forall c front, t = front ++ [c] -> ~ In c UStr.whitespace).

(** A key of a top-level object that gets through the three membership
    tests of [read_json_file]. *)
Definition key_passes (k : string) : bool :=
  Str.contains "name" k && Str.contains "prompt" k
  && Str.contains "negative_prompt" k.

(** * Facts about the [str] methods *)

Example replace_marker :
  Str.replace "{prompt}" "X" "a {prompt} b" = "a X b".
Proof. reflexivity. Qed.

Example replace_every_occurrence :
  Str.replace "{prompt}" "cat" "G {prompt} . L {prompt}" = "G cat . L cat".
Proof. reflexivity. Qed.

Example replace_empty_old : Str.replace "" "x" "ab" = "xaxbx".
Proof. reflexivity. Qed.

Example split_commas :
  Str.split "," "red, cat,,x" = ["red"; " cat"; ""; "x"]
  /\ Str.split "," "" = [""].
Proof. split; reflexivity. Qed.

Example split1_first_only :
  Str.split1 " . " "a . b . c" = ["a"; "b . c"]
  /\ Str.split1 " . " "a. b" = ["a. b"].
Proof. split; reflexivity. Qed.

Example strip_both_ends : Str.strip "  a b  " = "a b" /\ Str.strip "   " = "".
Proof. split; reflexivity. Qed.

Example join_tokens : Str.join ", " ["a"; "b"; "c"] = "a, b, c".
Proof. reflexivity. Qed.

Example endswith_json :
  Str.endswith ".json" "styles.json" = true
  /\ Str.endswith ".json" "json" = false.
Proof. split; reflexivity. Qed.

#[local] Arguments String.append !_ _ / : simpl nomatch.

Lemma app_assoc_str (a b c : string) : (a +:+ b) +:+ c = a +:+ (b +:+ c).
Proof. induction a as [|x a IH]; simpl; [reflexivity | now rewrite IH]. Qed.

Lemma app_empty_r (a : string) : a +:+ "" = a.
Proof. induction a as [|x a IH]; simpl; [reflexivity | now rewrite IH]. Qed.

Lemma length_app_str (a b : string) :
  String.length (a +:+ b) = String.length a + String.length b.
Proof. induction a as [|x a IH]; simpl; [reflexivity | now rewrite IH]. Qed.

Lemma startswith_app (p s : string) : Str.startswith p (p +:+ s) = true.
Proof.
  induction p as [|x p IH]; simpl; [reflexivity |].
  now rewrite Ascii.eqb_refl.
Qed.

Lemma startswith_split (p s : string) :
  Str.startswith p s = true -> s = p +:+ Str.drop (String.length p) s.
Proof.
  revert s. induction p as [|x p IH]; intros s H; simpl in *; [reflexivity |].
  destruct s as [|y s]; [discriminate |].
  destruct (Ascii.eqb_spec x y) as [-> | _]; [| discriminate].
  simpl. f_equal. now apply IH.
Qed.

Lemma drop_app_length (a s : string) : Str.drop (String.length a) (a +:+ s) = s.
Proof. induction a as [|x a IH]; simpl; [now destruct s | exact IH]. Qed.

(** [sub in s] says that [s] can be cut around a copy of [sub]. *)
Lemma contains_true (sub s : string) :
  Str.contains sub s = true <-> exists a b, s = a +:+ sub +:+ b.
Proof.
  split.
  - induction s as [|c s IH]; simpl; intros H.
    + rewrite orb_false_r in H. destruct sub; [| discriminate].
      now exists "", "".
    + apply orb_prop in H as [H | H].
      * exists "", (Str.drop (String.length sub) (String c s)).
        now apply startswith_split.
      * destruct (IH H) as (a & b & ->). now exists (String c a), b.
  - intros (a & b & ->). induction a as [|c a IH]; simpl.
    + destruct (sub +:+ b) eqn:E; simpl.
      * destruct sub; [reflexivity | discriminate].
      * rewrite <- E, startswith_app. reflexivity.
    + rewrite IH. apply orb_true_r.
Qed.

Lemma contains_false_tail (sub : string) c s :
  Str.contains sub (String c s) = false ->
  Str.startswith sub (String c s) = false /\ Str.contains sub s = false.
Proof. simpl. intros H. now apply orb_false_elim in H. Qed.

(** The scan jumps over what is left of an occurrence. *)
Lemma replace_from_skip (old new x s : string) :
  Str.replace_from old new (String.length x) (x +:+ s)
  = Str.replace_from old new 0 s.
Proof.
  induction x as [|c x IH]; simpl; [now destruct s | exact IH].
Qed.

Lemma replace_from_hit (old new b : string) c :
  Str.replace_from (String c old) new 0 (String c old +:+ b)
  = new +:+ Str.replace_from (String c old) new 0 b.
Proof.
  change (String c old +:+ b) with (String c (old +:+ b)).
  cbn [Str.replace_from].
  change (String c (old +:+ b)) with (String c old +:+ b).
  rewrite startswith_app. f_equal.
  replace (String.length (String c old) - 1) with (String.length old)
    by (cbn [String.length]; lia).
  apply replace_from_skip.
Qed.

Lemma none_before_tail (sub : string) n c s :
  none_before sub (S n) (String c s) ->
  Str.startswith sub (String c s) = false /\ none_before sub n s.
Proof.
  intros H. split.
  - apply (H 0). lia.
  - intros i Hi. apply (H (S i)). lia.
Qed.

Lemma replace_from_miss (old new a s : string) :
  none_before old (String.length a) (a +:+ s) ->
  Str.replace_from old new 0 (a +:+ s) = a +:+ Str.replace_from old new 0 s.
Proof.
  induction a as [|c a IH]; intros H; [reflexivity |].
  change (String c a +:+ s) with (String c (a +:+ s)) in *.
  apply none_before_tail in H as [H0 H].
  cbn [Str.replace_from]. rewrite H0.
  simpl. f_equal. now apply IH.
Qed.

Lemma replace_from_absent (old new s : string) :
  Str.contains old s = false -> Str.replace_from old new 0 s = s.
Proof.
  induction s as [|c s IH]; intros H; [reflexivity |].
  apply contains_false_tail in H as [H0 H].
  cbn [Str.replace_from]. rewrite H0. f_equal. now apply IH.
Qed.

(** [replace] leaves a string without the pattern alone. *)
Lemma replace_absent (old new s : string) :
  old <> "" -> Str.contains old s = false -> Str.replace old new s = s.
Proof.
  intros Hold H. destruct old as [|c old]; [congruence |].
  now apply replace_from_absent.
Qed.

(** [replace] at the first occurrence: the text before it stays, the new text
    comes in, and the scan goes on behind the occurrence. *)
Lemma replace_first (old new a b : string) :
  old <> "" ->
  none_before old (String.length a) (a +:+ old +:+ b) ->
  Str.replace old new (a +:+ old +:+ b) = a +:+ new +:+ Str.replace old new b.
Proof.
  intros Hold H. destruct old as [|c old]; [congruence |].
  unfold Str.replace. rewrite replace_from_miss by exact H.
  now rewrite replace_from_hit.
Qed.

Lemma replace_once (old new a b : string) :
  old <> "" ->
  none_before old (String.length a) (a +:+ old +:+ b) ->
  Str.contains old b = false ->
  Str.replace old new (a +:+ old +:+ b) = a +:+ new +:+ b.
Proof.
  intros Hold H Hb. rewrite replace_first by assumption.
  now rewrite (replace_absent old new b).
Qed.

Lemma split1_first (sep s : string) :
  sep <> "" -> Str.contains sep s = true ->
  exists a b, s = a +:+ sep +:+ b
    /\ none_before sep (String.length a) s
    /\ Str.split1 sep s = [a; b].
Proof.
  intros Hsep. induction s as [|c s IH]; intros H.
  - simpl in H. destruct sep; [congruence | discriminate].
  - cbn [Str.split1].
    destruct (Str.startswith sep (String c s)) eqn:E.
    + exists "", (Str.drop (String.length sep) (String c s)).
      split; [now apply startswith_split |].
      split; [intros i Hi; simpl in Hi; lia | reflexivity].
    + simpl in H. rewrite E in H. simpl in H.
      destruct (IH H) as (a & b & -> & Hn & ->).
      exists (String c a), b. split; [reflexivity |].
      split; [| reflexivity].
      intros [|i] Hi; [exact E |]. apply Hn. simpl in Hi. lia.
Qed.

Lemma lstrip_spec (s : string) :
  exists w, s = w +:+ Str.lstrip s /\ all_space w = true
    /\ head_space (Str.lstrip s) = false.
Proof.
  induction s as [|c s (w & Hs & Hw & Hh)]; [now exists "" |].
  simpl. destruct (Str.isspace c) eqn:E.
  - exists (String c w). simpl. rewrite E, Hw. now rewrite <- Hs.
  - exists "". simpl. now rewrite E.
Qed.

Lemma rstrip_spec (s : string) :
  exists w, s = Str.rstrip s +:+ w /\ all_space w = true
    /\ last_space (Str.rstrip s) = false.
Proof.
  induction s as [|c s (w & Hs & Hw & Hl)]; [now exists "" |].
  simpl. destruct (Str.rstrip s) as [|d r] eqn:E.
  - destruct (Str.isspace c) eqn:Ec.
    + exists (String c w). simpl in *. subst s. now rewrite Ec, Hw.
    + exists w. simpl in *. subst s. now rewrite Ec, Hw.
  - exists w. split; [now rewrite Hs at 1 |]. split; [exact Hw |].
    exact Hl.
Qed.

Lemma rstrip_head (s : string) :
  head_space s = false -> head_space (Str.rstrip s) = false.
Proof.
  destruct s as [|c s]; [reflexivity |]. simpl. intros H.
  destruct (Str.rstrip s); [now rewrite H | exact H].
Qed.

(** [strip] takes the white space off both ends and nothing else. *)
Lemma strip_trimmed (s : string) : trimmed s (Str.strip s).
Proof.
  unfold Str.strip.
  destruct (lstrip_spec s) as (w1 & Hs & Hw1 & Hh).
  destruct (rstrip_spec (Str.lstrip s)) as (w2 & Hs' & Hw2 & Hl).
  exists w1, w2. split; [now rewrite <- Hs' |].
  repeat split; try assumption. now apply rstrip_head.
Qed.

(** * Validation and lookup *)

Lemma bind_ok {A B : Type} (r : result A) (k : A -> result B) (b : B) :
  (x <- r ;; k x) = Ok b -> exists a, r = Ok a /\ k a = Ok b.
Proof. destruct r as [a | e]; simpl; [eauto | discriminate]. Qed.

Lemma eq_str_true (v : value) (s : string) : eq_str v s = true -> v = VStr s.
Proof.
  destruct v; simpl; try discriminate.
  intros H. apply String.eqb_eq in H. now subst.
Qed.

(** On a list of records the validation is total and checks the two
    fields. *)
Lemma validate_records (l : list value) :
  Forall (fun t => isdict t = true) l ->
  validate_json_data (VList l) = Ok (forallb is_template l).
Proof.
  induction 1 as [|t l Ht _ IH]; [reflexivity |].
  destruct t as [| | | | |kv]; try discriminate.
  cbn in IH |- *.
  destruct (dict_lookup "name" kv); cbn; [| reflexivity].
  destruct (dict_lookup "prompt" kv); cbn; [exact IH | reflexivity].
Qed.



(** What the lookup returns is a record of the store with that name. *)
Lemma find_in_some (l : list value) (n : string) (t : value) :
  find_in l n = Ok (Some t) ->
  exists kv, t = VDict kv /\ dict_lookup "name" kv = Some (VStr n) /\ In t l.
Proof.
  induction l as [|x l IH]; [discriminate |].
  cbn [find_in]. intros H. apply bind_ok in H as (v & Hv & H).
  destruct (eq_str v n) eqn:E.
  - injection H as <-. apply eq_str_true in E as ->.
    destruct x as [| | | | |kv]; try discriminate.
    exists kv. cbn in Hv. destruct (dict_lookup "name" kv); [| discriminate].
    injection Hv as ->. repeat split. now left.
  - destruct (IH H) as (kv & -> & Hk & Hin). exists kv. repeat split; auto.
    now right.
Qed.

Lemma chars_find (s n : string) (t : value) :
  find_in (chars s) n <> Ok (Some t).
Proof. destruct s; discriminate. Qed.

Lemma keys_find (kv : list (string * value)) (n : string) (t : value) :
  find_in (map (fun p => VStr (fst p)) kv) n <> Ok (Some t).
Proof. destruct kv; discriminate. Qed.

Lemma find_some (json_data : value) (n : string) (t : value) :
  find_template_by_name json_data n = Ok (Some t) ->
  exists l kv, json_data = VList l /\ In t l
    /\ t = VDict kv /\ dict_lookup "name" kv = Some (VStr n).
Proof.
  unfold find_template_by_name.
  destruct json_data as [| | |s|l|kv]; cbn; try discriminate.
  - intros H. now apply chars_find in H.
  - intros H. apply find_in_some in H as (kv & -> & Hk & Hin). now exists l, kv.
  - intros H. now apply keys_find in H.
Qed.

(** A template that was found passes the [if template:] test. *)
Lemma found_find (json_data : value) (n : string) (t : value) :
  find_template_by_name json_data n = Ok (Some t) -> found (Some t) = Some t.
Proof.
  intros H. apply find_some in H as (l & kv & _ & _ & -> & Hk).
  destruct kv; [discriminate | reflexivity].
Qed.

Lemma merge_negative_str (format : value -> string) (a b : string) :
  (forall s, format (VStr s) = s) ->
  merge_negative format (VStr a) b = VStr (merge_rule a b).
Proof.
  intros Hf. unfold merge_negative. rewrite Hf.
  destruct a, b; reflexivity.
Qed.


(** * The combiners *)

Section Combiners.

Variable format : value -> string.
Hypothesis format_str : forall s, format (VStr s) = s.

Lemma separator_nonempty : separator <> "".
Proof. discriminate. Qed.

Lemma marker_nonempty : marker <> "".
Proof. discriminate. Qed.

(** Unpacking the two pieces never fails. *)
Lemma split_template_advanced_total (template : string) :
  exists g l, split_template_advanced template = Ok (g, l).
Proof.
  unfold split_template_advanced.
  destruct (Str.contains separator template) eqn:E; [| eauto].
  destruct (split1_first separator template separator_nonempty E)
    as (a & b & _ & _ & ->).
  eauto.
Qed.

Lemma basic_found (json_data : value) (template_name : string) (t : value)
  (positive_prompt negative_prompt : string) :
  validate_json_data json_data = Ok true ->
  find_template_by_name json_data template_name = Ok (Some t) ->
  read_sdxl_templates_replace_and_combine format json_data template_name
    positive_prompt negative_prompt
  = replace_prompts_in_template format t positive_prompt negative_prompt.
Proof.
  intros Hv Hf. unfold read_sdxl_templates_replace_and_combine.
  rewrite Hv. cbn. rewrite Hf. cbn [bind].
  now rewrite (found_find _ _ _ Hf).
Qed.

Lemma advanced_found (json_data : value) (template_name : string) (t : value)
  (positive_prompt_g positive_prompt_l negative_prompt negative_prompt_to : string)
  (copy_to_l : bool) :
  validate_json_data json_data = Ok true ->
  find_template_by_name json_data template_name = Ok (Some t) ->
  read_sdxl_templates_replace_and_combine_advanced format json_data template_name
    positive_prompt_g positive_prompt_l negative_prompt negative_prompt_to copy_to_l
  = replace_prompts_in_template_advanced format t positive_prompt_g positive_prompt_l
      negative_prompt negative_prompt_to copy_to_l.
Proof.
  intros Hv Hf. unfold read_sdxl_templates_replace_and_combine_advanced.
  rewrite Hv. cbn. rewrite Hf. cbn [bind].
  now rewrite (found_find _ _ _ Hf).
Qed.

(** A record that has a [prompt] also answers [get]. *)
Lemma getitem_dict_get (t v : value) (k : string) :
  getitem t k = Ok v -> forall k' d, exists w, dict_get t k' d = Ok w.
Proof. destruct t; try discriminate. intros _ k' d. cbn. eauto. Qed.

(** The negative side of the advanced combiner, for a template with a
    string prompt. *)
Lemma advanced_negative (t : value) (prompt : string)
  (positive_prompt_g positive_prompt_l negative_prompt negative_prompt_to : string)
  (copy_to_l : bool) :
  getitem t "prompt" = Ok (VStr prompt) ->
  exists r json_negative_prompt,
    replace_prompts_in_template_advanced format t positive_prompt_g
      positive_prompt_l negative_prompt negative_prompt_to copy_to_l = Ok r
    /\ dict_get t "negative_prompt" (VStr "") = Ok json_negative_prompt
    /\ text_negative r = merge_negative format json_negative_prompt negative_prompt
    /\ text_g_negative r
       = (if one_of negative_prompt_to "Both" "G only"
          then text_negative r else VStr "")
    /\ text_l_negative r
       = (if one_of negative_prompt_to "Both" "L only"
          then text_negative r else VStr "").
Proof.
  intros Hp. unfold replace_prompts_in_template_advanced. rewrite Hp. cbn [bind].
  destruct (split_template_advanced_total prompt) as (g & l & ->). cbn [bind].
  destruct (getitem_dict_get _ _ _ Hp "negative_prompt" (VStr "")) as (w & ->).
  cbn [bind]. eexists _, w. repeat split; reflexivity.
Qed.

(** C1.  For a store that passes the validation and a template the lookup
    finds in it, whose prompt is a string and whose negative_prompt is a
    string or missing (then taken as empty): the basic combiner returns the
    prompt with every [{prompt}] replaced by the user's positive text, which
    is the prompt itself when the marker is absent and the text around the
    marker with the user's text in between when the marker occurs once; the
    negative text is the two negatives joined by a comma and a space when
    both are non-empty, the non-empty one when one is, and empty when both
    are. *)
Theorem combine_basic_found (json_data : value) (template_name : string)
  (t : value) (prompt negative positive_prompt negative_prompt : string) :
  validate_json_data json_data = Ok true ->
  find_template_by_name json_data template_name = Ok (Some t) ->
  getitem t "prompt" = Ok (VStr prompt) ->
  dict_get t "negative_prompt" (VStr "") = Ok (VStr negative) ->
  read_sdxl_templates_replace_and_combine format json_data template_name
    positive_prompt negative_prompt
  = Ok (Str.replace marker positive_prompt prompt,
        VStr (merge_rule negative negative_prompt))
  /\ (Str.contains marker prompt = false ->
      Str.replace marker positive_prompt prompt = prompt)
  /\ (forall a b,
        prompt = a +:+ marker +:+ b ->
        none_before marker (String.length a) prompt ->
        Str.contains marker b = false ->
        Str.replace marker positive_prompt prompt = a +:+ positive_prompt +:+ b)
  /\ (negative <> "" -> negative_prompt <> "" ->
      merge_rule negative negative_prompt = negative +:+ ", " +:+ negative_prompt)
  /\ (negative_prompt = "" -> merge_rule negative negative_prompt = negative)
  /\ (negative = "" -> merge_rule negative negative_prompt = negative_prompt).
Proof.
  intros Hv Hf Hp Hn. split; [| split; [| split; [| split; [| split]]]].
  - rewrite (basic_found _ _ _ _ _ Hv Hf).
    unfold replace_prompts_in_template. rewrite Hp. cbn [bind]. rewrite Hn.
    cbn [bind]. now rewrite merge_negative_str.
  - apply replace_absent, marker_nonempty.
  - intros a b -> Hbefore Hb. now apply replace_once.
  - intros H1 H2. destruct negative, negative_prompt; congruence || reflexivity.
  - intros ->. now destruct negative.
  - intros ->. now destruct negative_prompt.
Qed.

(** C5.  For a store that passes the validation and a template found in it
    with a string prompt, the advanced combiner returns, and its combined
    negative text is the merge of the template's negative_prompt with the
    user's; "Both" puts it into both [text_g_negative] and
    [text_l_negative], "G only" into [text_g_negative] alone with
    [text_l_negative] empty, "L only" into [text_l_negative] alone with
    [text_g_negative] empty. *)
Theorem negative_routing (json_data : value) (template_name : string)
  (t : value) (prompt : string)
  (positive_prompt_g positive_prompt_l negative_prompt negative_prompt_to : string)
  (copy_to_l : bool) :
  validate_json_data json_data = Ok true ->
  find_template_by_name json_data template_name = Ok (Some t) ->
  getitem t "prompt" = Ok (VStr prompt) ->
  exists r json_negative_prompt,
    read_sdxl_templates_replace_and_combine_advanced format json_data
      template_name positive_prompt_g positive_prompt_l negative_prompt
      negative_prompt_to copy_to_l = Ok r
    /\ dict_get t "negative_prompt" (VStr "") = Ok json_negative_prompt
    /\ text_negative r = merge_negative format json_negative_prompt negative_prompt
    /\ (negative_prompt_to = "Both" ->
        text_g_negative r = text_negative r /\ text_l_negative r = text_negative r)
    /\ (negative_prompt_to = "G only" ->
        text_g_negative r = text_negative r /\ text_l_negative r = VStr "")
    /\ (negative_prompt_to = "L only" ->
        text_g_negative r = VStr "" /\ text_l_negative r = text_negative r).
Proof.
  intros Hv Hf Hp.
  destruct (advanced_negative t prompt positive_prompt_g positive_prompt_l
              negative_prompt negative_prompt_to copy_to_l Hp)
    as (r & jn & Hr & Hj & Hn & Hg & Hl).
  exists r, jn. rewrite (advanced_found _ _ _ _ _ _ _ _ Hv Hf).
  repeat split; try assumption; subst negative_prompt_to; cbn in Hg, Hl;
    congruence.
Qed.

(** C10.  With a selector other than "Both", "G only" and "L only", a found
    template with a string prompt gives empty [text_g_negative] and
    [text_l_negative], while [text_negative] is still the merge of the
    template's negative_prompt with the user's negative text: by the merge
    rule when the template's is a string or missing. *)
Theorem negative_routing_other (json_data : value) (template_name : string)
  (t : value) (prompt : string)
  (positive_prompt_g positive_prompt_l negative_prompt negative_prompt_to : string)
  (copy_to_l : bool) :
  validate_json_data json_data = Ok true ->
  find_template_by_name json_data template_name = Ok (Some t) ->
  getitem t "prompt" = Ok (VStr prompt) ->
  negative_prompt_to <> "Both" ->
  negative_prompt_to <> "G only" ->
  negative_prompt_to <> "L only" ->
  exists r json_negative_prompt,
    read_sdxl_templates_replace_and_combine_advanced format json_data
      template_name positive_prompt_g positive_prompt_l negative_prompt
      negative_prompt_to copy_to_l = Ok r
    /\ text_g_negative r = VStr ""
    /\ text_l_negative r = VStr ""
    /\ dict_get t "negative_prompt" (VStr "") = Ok json_negative_prompt
    /\ text_negative r = merge_negative format json_negative_prompt negative_prompt
    /\ (forall negative, json_negative_prompt = VStr negative ->
        text_negative r = VStr (merge_rule negative negative_prompt)).
Proof.
  intros Hv Hf Hp HB HG HL.
  destruct (advanced_negative t prompt positive_prompt_g positive_prompt_l
              negative_prompt negative_prompt_to copy_to_l Hp)
    as (r & jn & Hr & Hj & Hn & Hg & Hl).
  exists r, jn. rewrite (advanced_found _ _ _ _ _ _ _ _ Hv Hf).
  apply String.eqb_neq in HB, HG, HL.
  unfold one_of in Hg, Hl. rewrite HB, HG in Hg. rewrite HB, HL in Hl.
  split; [exact Hr |]. split; [exact Hg |]. split; [exact Hl |].
  split; [exact Hj |]. split; [exact Hn |].
  intros negative ->. rewrite Hn. now apply merge_negative_str.
Qed.

End Combiners.

(** The split on strings of characters below 256: when the prompt contains
    [" . "], the advanced split cuts it at the first occurrence and returns
    the two sides with the white space around each taken off; when it does
    not, it returns the whole prompt, untouched, and the empty string.
    ([contains_true] relates the test to the cut.) *)
Theorem split_template_advanced_spec (template : string) :
  (Str.contains separator template = true ->
   exists a b,
     template = a +:+ separator +:+ b
     /\ none_before separator (String.length a) template
     /\ split_template_advanced template = Ok (Str.strip a, Str.strip b)
     /\ trimmed a (Str.strip a) /\ trimmed b (Str.strip b))
  /\ (Str.contains separator template = false ->
      split_template_advanced template = Ok (template, "")).
Proof.
  unfold split_template_advanced. split; intros H; rewrite H; [| reflexivity].
  destruct (split1_first separator template separator_nonempty H)
    as (a & b & Heq & Hfirst & ->).
  exists a, b. repeat split; auto using strip_trimmed.
Qed.

Section PassThrough.

Variable format : value -> string.




End PassThrough.

(** * The loader *)

Lemma suffix_name_inj (n : string) (j k : N) :
  suffix_name n j = suffix_name n k -> j = k.
Proof.
  unfold suffix_name. intros H.
  apply (inj (String.app n)) in H. apply (inj (String.app "_")) in H.
  now apply (inj pretty) in H.
Qed.

Lemma suffix_name_neq (n : string) (k : N) : suffix_name n k <> n.
Proof.
  unfold suffix_name. intros H. apply (f_equal String.length) in H.
  rewrite !length_app_str in H. cbn in H. lia.
Qed.

Lemma set_in_str (s : string) (ss : list string) :
  set_in (VStr s) (map VStr ss) = Ok (list_in s ss).
Proof.
  unfold set_in, list_in. cbn. f_equal.
  induction ss as [|x ss IH]; [reflexivity |]. cbn. now rewrite IH.
Qed.

Lemma list_in_spec (s : string) (ss : list string) :
  list_in s ss = true <-> In s ss.
Proof.
  unfold list_in. rewrite existsb_exists. split.
  - intros (x & Hx & E). apply String.eqb_eq in E. now subst.
  - intros H. exists s. split; [exact H | apply String.eqb_refl].
Qed.

Lemma list_in_false (s : string) (ss : list string) :
  list_in s ss = false <-> ~ In s ss.
Proof.
  rewrite <- list_in_spec. destruct (list_in s ss); split; congruence.
Qed.

(** Taking [s] out of a list that has it makes the list shorter. *)
Lemma without_shorter (s : string) (ss : list string) :
  In s ss ->
  length (List.filter (fun x => negb (String.eqb x s)) ss) < length ss.
Proof.
  induction ss as [|x ss IH]; [intros [] |]. intros H. cbn.
  destruct (String.eqb_spec x s) as [-> | Hne]; cbn.
  - pose proof (List.filter_length_le (fun x => negb (String.eqb x s)) ss). lia.
  - destruct H as [-> | H]; [congruence |]. specialize (IH H). lia.
Qed.

Lemma without_keeps (s x : string) (ss : list string) :
  In x ss -> x <> s -> In x (List.filter (fun x => negb (String.eqb x s)) ss).
Proof.
  intros H Hne. apply List.filter_In. split; [exact H |].
  now apply negb_true_iff, String.eqb_neq.
Qed.

Section Loader.

Variable format : value -> string.
Hypothesis format_str : forall s, format (VStr s) = s.

(** The renaming loop stops before it has tested more names than the store
    holds, and what it returns is the first free name.  [rest] holds the
    names of the store the loop can still run into. *)
Lemma rename_loop (fuel : nat) (ss rest : list string) (n style : string)
  (suffix : N) :
  length rest < fuel ->
  (In style ss -> In style rest) ->
  (forall j, (suffix <= j)%N ->
     In (suffix_name n j) ss -> In (suffix_name n j) rest) ->
  (forall j, (suffix <= j)%N -> style <> suffix_name n j) ->
  exists s,
    rename format fuel (map VStr ss) (VStr n) (VStr style) suffix
    = Some (Ok (VStr s))
    /\ ((~ In style ss /\ s = style)
        \/ (In style ss /\ exists k,
              (suffix <= k)%N /\ s = suffix_name n k /\ ~ In s ss
              /\ forall j, (suffix <= j < k)%N -> In (suffix_name n j) ss)).
Proof.
  revert rest style suffix.
  induction fuel as [|fuel IH]; intros rest style suffix Hlen Hstyle Hrest Hnew;
    [lia |].
  cbn [rename]. rewrite set_in_str.
  destruct (list_in style ss) eqn:E.
  - apply list_in_spec in E.
    unfold suffixed. rewrite format_str. fold (suffix_name n suffix).
    destruct (IH (List.filter (fun x => negb (String.eqb x style)) rest)
                (suffix_name n suffix) (suffix + 1)%N) as (s & Hs & Hcase).
    + pose proof (without_shorter style rest (Hstyle E)). lia.
    + intros H. apply without_keeps; [apply Hrest; [lia | exact H] |].
      intros Heq. apply (Hnew suffix); [lia | now symmetry].
    + intros j Hj H. apply without_keeps; [apply Hrest; [lia | exact H] |].
      intros Heq. apply (Hnew j); [lia | now symmetry].
    + intros j Hj Heq. apply suffix_name_inj in Heq. lia.
    + exists s. split; [exact Hs |]. right. split; [exact E |].
      destruct Hcase as [[Hfree ->] | (Htaken & k & Hk & -> & Hfree & Hbelow)].
      * exists suffix. repeat split; [lia | exact Hfree | intros j Hj; lia].
      * exists k. repeat split; [lia | exact Hfree |].
        intros j Hj. destruct (N.eq_dec j suffix) as [-> | Hne];
          [exact Htaken | apply Hbelow; lia].
  - apply list_in_false in E. exists style. split; [reflexivity |].
    left. now split.
Qed.

(** For a template named [n] the loop returns the style the collision rule
    gives. *)
Lemma rename_style (fuel : nat) (ss : list string) (n : string) :
  length ss < fuel ->
  exists s,
    rename format fuel (map VStr ss) (VStr n) (VStr n) 1
    = Some (Ok (VStr s))
    /\ style_for ss n s /\ ~ In s ss.
Proof.
  intros Hlen.
  destruct (rename_loop fuel ss ss n n 1 Hlen) as (s & Hs & Hcase).
  - auto.
  - auto.
  - intros j _ H. symmetry in H. now apply suffix_name_neq in H.
  - exists s. split; [exact Hs |].
    destruct Hcase as [[Hfree ->] | (Htaken & k & Hk & -> & Hfree & Hbelow)].
    + split; [now constructor | exact Hfree].
    + split; [now constructor | exact Hfree].
Qed.

Lemma load_items_spec (fuel : nat) (items : list value) :
  forall (st : loaded) (ss : list string),
  seen st = map VStr ss ->
  Forall (fun t => str_named t = true) items ->
  length ss + length items <= fuel ->
  exists styles,
    load_items format fuel st items
    = Some (Ok {| combined_data :=
                    combined_data st ++ zip_with with_name items styles;
                  seen := map VStr (ss ++ styles) |})
    /\ renamed ss (map name_of items) styles.
Proof.
  induction items as [|item items IH]; intros st ss Hseen Hitems Hfuel.
  - exists []. rewrite !app_nil_r, <- Hseen. destruct st. split; [reflexivity |].
    constructor.
  - inversion Hitems as [|? ? Hitem Hrest]; subst.
    destruct item as [| | | | |kv]; try discriminate.
    cbn in Hitem. destruct (dict_lookup "name" kv) as [[| | |n| |]|] eqn:En;
      try discriminate.
    cbn in Hfuel.
    destruct (rename_style fuel ss n ltac:(lia)) as (s & Hs & Hstyle & Hfree).
    destruct (IH {| combined_data := combined_data st ++ [with_name (VDict kv) s];
                    seen := seen st ++ [VStr s] |} (ss ++ [s]))
      as (styles & Hload & Hren).
    + cbn. now rewrite Hseen, map_app.
    + exact Hrest.
    + rewrite length_app. cbn. lia.
    + exists (s :: styles). split.
      * cbn [load_items]. unfold load_item. cbn [getitem]. rewrite En, Hseen, Hs.
        cbn [setitem]. cbn [with_name] in Hload. rewrite Hseen in Hload.
        rewrite Hload. cbn.
        now rewrite <- !app_assoc.
      * cbn. rewrite En. now constructor.
Qed.

Lemma load_items_app (fuel : nat) (l1 l2 : list value) (st : loaded) :
  load_items format fuel st (l1 ++ l2)
  = match load_items format fuel st l1 with
    | Some (Ok st') => load_items format fuel st' l2
    | other => other
    end.
Proof.
  revert st. induction l1 as [|x l1 IH]; intros st; [reflexivity |].
  cbn. destruct (load_item format fuel st x) as [[st' | e] |]; auto.
Qed.

Lemma read_json_file_iter (f : file) (c : value) :
  read_json_file f = Some c -> exists items, py_iter c = Ok items.
Proof.
  unfold read_json_file. destruct (readable f); [| discriminate]. cbn.
  destruct (content f) as [c' |]; [| discriminate].
  destruct (py_iter c') as [items | e] eqn:E; cbn; [| discriminate].
  destruct (mapM has_all_fields items); [| discriminate].
  destruct (forallb _ _); [| discriminate].
  intros [= <-]. eauto.
Qed.

Lemma load_file_records (fuel : nat) (st : loaded) (f : file) :
  load_file format fuel st f = load_items format fuel st (file_records f).
Proof.
  unfold load_file, file_records.
  destruct (read_json_file f) as [c |] eqn:E; [| reflexivity].
  destruct (truthy c); [| reflexivity].
  destruct (read_json_file_iter f c E) as (items & ->). reflexivity.
Qed.

Lemma load_files_records (fuel : nat) (files : list file) (st : loaded) :
  load_files format fuel st files
  = load_items format fuel st (flat_map file_records files).
Proof.
  revert st. induction files as [|f files IH]; intros st; [reflexivity |].
  cbn [load_files flat_map]. rewrite load_items_app, load_file_records.
  destruct (load_items format fuel st (file_records f)) as [[st' | e] |]; auto.
Qed.

End Loader.

Lemma style_for_free (earlier : list string) (n s : string) :
  style_for earlier n s -> ~ In s earlier.
Proof. now destruct 1. Qed.

Lemma style_for_nonempty (earlier : list string) (n s : string) :
  style_for earlier n s -> n <> "" -> s <> "".
Proof.
  intros [Hfree | k _ _ _ _]; [auto |]. intros _ Hempty.
  apply (f_equal String.length) in Hempty.
  unfold suffix_name in Hempty. rewrite !length_app_str in Hempty.
  cbn in Hempty. lia.
Qed.

Lemma renamed_length (earlier ns ss : list string) :
  renamed earlier ns ss -> length ss = length ns.
Proof. induction 1; cbn; congruence. Qed.

Lemma renamed_fresh (earlier ns ss : list string) :
  renamed earlier ns ss ->
  NoDup ss /\ forall s, In s ss -> ~ In s earlier.
Proof.
  induction 1 as [earlier | earlier n s ns ss Hs _ [IHd IHf]].
  - split; [constructor | intros s []].
  - split.
    + constructor; [| exact IHd]. rewrite list_elem_of_In. intros Hin.
      apply (IHf s Hin). apply in_or_app. right. now left.
    + intros x [<- | Hx]; [now apply style_for_free in Hs |].
      intros Hin. apply (IHf x Hx). apply in_or_app. now left.
Qed.

Lemma renamed_nonempty (earlier ns ss : list string) :
  renamed earlier ns ss ->
  Forall (fun n => n <> "") ns -> Forall (fun s => s <> "") ss.
Proof.
  induction 1 as [|earlier n s ns ss Hs _ IH]; intros Hn; [constructor |].
  inversion Hn; subst. constructor; [| auto].
  now apply (style_for_nonempty earlier n).
Qed.

(** The rule read at one position: the names before it are the earlier part
    of the result. *)
Lemma renamed_lookup (earlier ns ss : list string) :
  renamed earlier ns ss ->
  forall i n, ns !! i = Some n ->
  exists s, ss !! i = Some s /\ style_for (earlier ++ take i ss) n s.
Proof.
  induction 1 as [|earlier n s ns ss Hs _ IH]; intros i m Hi; [discriminate |].
  destruct i as [|i]; cbn in Hi |- *.
  - injection Hi as <-. exists s. split; [reflexivity |]. now rewrite app_nil_r.
  - destruct (IH i m Hi) as (x & Hx & Hstyle). exists x. split; [exact Hx |].
    now rewrite <- app_assoc in Hstyle.
Qed.

Lemma names_of_app (l1 l2 : list value) :
  names_of (l1 ++ l2) = names_of l1 ++ names_of l2.
Proof.
  induction l1 as [|x l1 IH]; [reflexivity |].
  destruct x as [| | | | |kv]; cbn; auto.
  destruct (dict_lookup "name" kv); cbn; now rewrite ?IH.
Qed.

Lemma dict_lookup_store (k : string) (v : value) (kv : list (string * value)) :
  dict_lookup k (dict_store k v kv) = Some v.
Proof.
  induction kv as [|[k' v'] kv IH]; cbn; [now rewrite String.eqb_refl |].
  destruct (String.eqb k' k) eqn:E; cbn; [now rewrite String.eqb_refl |].
  now rewrite E.
Qed.

Lemma names_of_with_name (items : list value) (styles : list string) :
  Forall (fun t => str_named t = true) items ->
  length styles = length items ->
  names_of (zip_with with_name items styles) = map VStr styles.
Proof.
  intros Hitems. revert styles.
  induction Hitems as [|t items Ht _ IH]; intros [|s styles] Hlen;
    try discriminate; [reflexivity |].
  destruct t as [| | | | |kv]; try discriminate.
  cbn. rewrite dict_lookup_store. f_equal. apply IH. now injection Hlen.
Qed.

Lemma style_for_functional (earlier : list string) (n s1 s2 : string) :
  style_for earlier n s1 -> style_for earlier n s2 -> s1 = s2.
Proof.
  intros [Hfree1 | k1 Hin1 Hk1 Hfree1 Hbelow1] [Hfree2 | k2 Hin2 Hk2 Hfree2 Hbelow2];
    try reflexivity; try contradiction.
  f_equal. destruct (N.lt_trichotomy k1 k2) as [Hlt | [-> | Hlt]];
    [| reflexivity |].
  - destruct Hfree1. apply Hbelow2. lia.
  - destruct Hfree2. apply Hbelow1. lia.
Qed.

Lemma renamed_functional (earlier ns ss1 ss2 : list string) :
  renamed earlier ns ss1 -> renamed earlier ns ss2 -> ss1 = ss2.
Proof.
  intros H. revert ss2.
  induction H as [|earlier n s ns ss Hs _ IH]; intros ss2 H2;
    inversion H2 as [|? ? s' ? ss' Hs' Hrest]; subst; [reflexivity |].
  assert (s' = s) as -> by (eapply style_for_functional; eassumption).
  f_equal. now apply IH.
Qed.

Lemma renamed_twice (n : string) (ss : list string) :
  renamed [] [n; n] ss -> ss = [n; suffix_name n 1].
Proof.
  intros H. inversion H as [|? ? s1 ? ss1 Hs1 H1]; subst.
  inversion H1 as [|? ? s2 ? ss2 Hs2 H2]; subst.
  inversion H2; subst.
  assert (s1 = n) as ->.
  { inversion Hs1 as [| k Hin]; [reflexivity | destruct Hin]. }
  f_equal. f_equal. cbn in Hs2.
  inversion Hs2 as [Hfree | k Hin Hk Hfree Hbelow]; subst.
  - destruct Hfree. now left.
  - destruct (N.eq_dec k 1%N) as [-> | Hne]; [reflexivity |].
    destruct (Hbelow 1%N ltac:(lia)) as [Heq | []].
    symmetry in Heq. now apply suffix_name_neq in Heq.
Qed.

Lemma mapM_has_all_fields (l : list value) :
  Forall (fun t => isdict t = true) l ->
  mapM has_all_fields l = Ok (map complete_record l).
Proof.
  induction 1 as [|t l Ht _ IH]; [reflexivity |].
  destruct t as [| | | | |kv]; try discriminate.
  cbn [mapM map]. rewrite IH.
  unfold has_all_fields. cbn.
  destruct (dict_lookup "name" kv); cbn; [| reflexivity].
  destruct (dict_lookup "prompt" kv); cbn; [| reflexivity].
  now destruct (dict_lookup "negative_prompt" kv).
Qed.

Lemma forallb_map_id {A : Type} (f : A -> bool) (l : list A) :
  forallb (fun b : bool => b) (map f l) = forallb f l.
Proof. induction l as [|x l IH]; cbn; now rewrite ?IH. Qed.

(** C2, amended.  When every record of every accepted file is a dict with
    a string name, the loader returns once the bound on the renaming loop is
    at least the number of records: the store is the accepted files'
    records in directory-listing order, each with its name set to its
    style, and the second component lists the styles.  The styles are
    pairwise distinct; the style at a position is the record's own name
    when no earlier style equals it, and otherwise the first free
    [name_k], [k] counting up from 1; styles are non-empty when the files'
    names are (the loader does not check that); and the names "A", "A"
    give the styles "A", "A_1". *)
Theorem load_styles_from_directory_spec (format : value -> string)
  (directory : list entry) :
  (forall s, format (VStr s) = s) ->
  Forall (fun t => str_named t = true) (loaded_records directory) ->
  exists styles : list string,
    (forall fuel, length (loaded_records directory) <= fuel ->
       load_styles_from_directory format fuel directory
       = Some (Ok (zip_with with_name (loaded_records directory) styles,
                   map VStr styles)))
    /\ length styles = length (loaded_records directory)
    /\ NoDup styles
    /\ (forall i n,
          map name_of (loaded_records directory) !! i = Some n ->
          exists s, styles !! i = Some s /\ style_for (take i styles) n s)
    /\ (Forall (fun n => n <> "") (map name_of (loaded_records directory)) ->
        Forall (fun s => s <> "") styles)
    /\ (map name_of (loaded_records directory) = ["A"; "A"] ->
        styles = ["A"; "A_1"]).
Proof.
  intros format_str Hrecords.
  set (records := loaded_records directory) in *.
  set (st0 := {| combined_data := []; seen := [] |}).
  destruct (load_items_spec format format_str (length records) records st0 []
              eq_refl Hrecords ltac:(cbn; lia)) as (styles & _ & Hren).
  assert (Hlen : length styles = length records).
  { rewrite (renamed_length _ _ _ Hren). apply length_map. }
  exists styles. split; [| split; [exact Hlen | split; [| split; [| split]]]].
  - intros fuel Hfuel.
    destruct (load_items_spec format format_str fuel records st0 []
                eq_refl Hrecords ltac:(cbn; lia)) as (styles' & Hload & Hren').
    assert (styles' = styles) as -> by (eapply renamed_functional; eassumption).
    unfold load_styles_from_directory. rewrite load_files_records.
    change (flat_map file_records (get_all_json_files directory)) with records.
    change {| combined_data := []; seen := [] |} with st0.
    rewrite Hload. cbn.
    now rewrite names_of_with_name.
  - now apply (renamed_fresh [] _ _ Hren).
  - intros i n Hi. now apply (renamed_lookup [] _ _ Hren).
  - now apply (renamed_nonempty [] _ _ Hren).
  - intros Heq. rewrite Heq in Hren. now apply renamed_twice in Hren.
Qed.

(** C9, amended.  The loader rejects a file it cannot read or parse.  A
    readable file that parses as an array of objects is accepted exactly
    when every record has [name], [prompt] and [negative_prompt]: a record
    without [negative_prompt] makes the loader reject the file.  A rejected
    file leaves the store as it was. *)
Theorem read_json_file_records (f : file) :
  (readable f = false -> read_json_file f = None)
  /\ (content f = None -> read_json_file f = None)
  /\ (forall l,
        readable f = true -> content f = Some (VList l) ->
        Forall (fun t => isdict t = true) l ->
        read_json_file f
        = if forallb complete_record l then Some (VList l) else None)
  /\ (forall format fuel st,
        read_json_file f = None -> load_file format fuel st f = Some (Ok st)).
Proof.
  unfold read_json_file. repeat split.
  - now intros ->.
  - intros ->. now destruct (readable f).
  - intros l -> -> Hl. cbn. rewrite (mapM_has_all_fields l Hl).
    now rewrite forallb_map_id.
  - intros format fuel st H. unfold load_file, read_json_file. now rewrite H.
Qed.

(** * The two places where the advanced combiner misses a case *)

(** The join of the local text tests the template before the replacement.
    Where the replacement leaves the emptiness of the local template as it
    was, the outcome is the merge rule on the replaced text. *)
Lemma comma_join_merge_rule (template_l positive_g positive_l : string) :
  Str.nonempty (Str.replace marker positive_g template_l)
  = Str.nonempty template_l ->
  comma_join (Str.nonempty template_l)
    (Str.replace marker positive_g template_l) positive_l
  = claimed_text_l template_l positive_g positive_l.
Proof.
  unfold comma_join, claimed_text_l. intros <-.
  destruct (Str.replace marker positive_g template_l), positive_l; reflexivity.
Qed.

Lemma list_remove_nodup (x : string) (l : list string) :
  NoDup l ->
  (if list_in x l then list_remove x l else l)
  = List.filter (fun t => negb (String.eqb t x)) l.
Proof.
  unfold list_in. induction 1 as [|y l Hy Hl IH]; [reflexivity |].
  cbn. rewrite (String.eqb_sym x y).
  destruct (String.eqb_spec y x) as [-> | Hne]; cbn.
  - symmetry. apply forallb_filter_id. apply forallb_forall.
    intros t Ht. apply negb_true_iff, String.eqb_neq. intros ->.
    now apply Hy, list_elem_of_In.
  - destruct (existsb (String.eqb x) l); [now rewrite <- IH |].
    now rewrite <- IH.
Qed.

Lemma filter_nodup (f : string -> bool) (l : list string) :
  NoDup l -> NoDup (List.filter f l).
Proof.
  induction 1 as [|y l Hy Hl IH]; [constructor |]. cbn.
  destruct (f y); [| exact IH]. constructor; [| exact IH].
  rewrite list_elem_of_In, List.filter_In. rewrite list_elem_of_In in Hy. tauto.
Qed.

(** The loop takes one copy of a local token away for each copy among the
    global tokens.  When no local token is repeated, that removes every
    local token that is among the global ones, as C4 has it. *)
Lemma deduplicate_nodup (token_g token_l : list string) :
  NoDup token_l ->
  deduplicate token_g token_l
  = List.filter (fun t => negb (list_in t token_g)) token_l.
Proof.
  unfold deduplicate. revert token_l.
  induction token_g as [|x token_g IH]; intros token_l Hl; cbn.
  - symmetry. apply forallb_filter_id. now apply forallb_forall.
  - rewrite (list_remove_nodup x token_l Hl), IH by now apply filter_nodup.
    induction token_l as [|y token_l IHl]; [reflexivity |].
    inversion Hl; subst. cbn. rewrite (String.eqb_sym y x).
    destruct (String.eqb x y); cbn; rewrite IHl by assumption; reflexivity.
Qed.

(** The positive side of the advanced combiner, for a template with a
    string prompt that splits into [g] and [l]. *)
Lemma advanced_positive (format : value -> string) (t : value)
  (prompt g l : string)
  (positive_prompt_g positive_prompt_l negative_prompt negative_prompt_to : string)
  (copy_to_l : bool) :
  getitem t "prompt" = Ok (VStr prompt) ->
  split_template_advanced prompt = Ok (g, l) ->
  exists r,
    replace_prompts_in_template_advanced format t positive_prompt_g
      positive_prompt_l negative_prompt negative_prompt_to copy_to_l = Ok r
    /\ text_g_positive r = Str.replace marker positive_prompt_g g
    /\ text_l_positive r
       = (let joined :=
            comma_join (Str.nonempty l)
              (Str.replace marker positive_prompt_g l) positive_prompt_l in
          if copy_to_l && Str.nonempty positive_prompt_g
             && negb (Str.contains marker l)
          then Str.join ", "
                 (tokens (text_g_positive r)
                  ++ deduplicate (tokens (text_g_positive r)) (tokens joined))
          else joined)
    /\ text_positive r
       = (if Str.nonempty (text_l_positive r)
          then text_g_positive r +:+ " . " +:+ text_l_positive r
          else text_g_positive r).
Proof.
  intros Hp Hs. unfold replace_prompts_in_template_advanced.
  rewrite Hp. cbn [bind]. rewrite Hs. cbn [bind fst snd].
  destruct (getitem_dict_get _ _ _ Hp "negative_prompt" (VStr "")) as (w & ->).
  cbn [bind]. eexists. repeat split.
Qed.

(** Without copy_to_l, and when the replacement does not empty a local
    template that was not empty, the three positive outputs are what C3
    says. *)
Lemma advanced_positive_no_copy (format : value -> string) (t : value)
  (prompt g l : string)
  (positive_prompt_g positive_prompt_l negative_prompt negative_prompt_to : string) :
  getitem t "prompt" = Ok (VStr prompt) ->
  split_template_advanced prompt = Ok (g, l) ->
  Str.nonempty (Str.replace marker positive_prompt_g l) = Str.nonempty l ->
  exists r,
    replace_prompts_in_template_advanced format t positive_prompt_g
      positive_prompt_l negative_prompt negative_prompt_to false = Ok r
    /\ text_g_positive r = Str.replace marker positive_prompt_g g
    /\ text_l_positive r = claimed_text_l l positive_prompt_g positive_prompt_l
    /\ text_positive r
       = (if Str.nonempty (text_l_positive r)
          then text_g_positive r +:+ " . " +:+ text_l_positive r
          else text_g_positive r).
Proof.
  intros Hp Hs Hl.
  destruct (advanced_positive format t prompt g l positive_prompt_g
              positive_prompt_l negative_prompt negative_prompt_to false Hp Hs)
    as (r & Hr & Hg & Htl & Hpos).
  exists r. split; [exact Hr |]. split; [exact Hg |]. split; [| exact Hpos].
  rewrite Htl. cbn. now apply comma_join_merge_rule.
Qed.

(** With copy_to_l, a non-empty global text and no marker in the local
    template, and when no local token is repeated, the local output is what
    C4 says. *)
Lemma advanced_positive_copy (format : value -> string) (t : value)
  (prompt g l : string)
  (positive_prompt_g positive_prompt_l negative_prompt negative_prompt_to : string) :
  getitem t "prompt" = Ok (VStr prompt) ->
  split_template_advanced prompt = Ok (g, l) ->
  Str.nonempty positive_prompt_g = true ->
  Str.contains marker l = false ->
  NoDup (tokens (comma_join (Str.nonempty l)
                   (Str.replace marker positive_prompt_g l) positive_prompt_l)) ->
  exists r,
    replace_prompts_in_template_advanced format t positive_prompt_g
      positive_prompt_l negative_prompt negative_prompt_to true = Ok r
    /\ text_l_positive r
       = claimed_copy_to_l (text_g_positive r)
           (comma_join (Str.nonempty l)
              (Str.replace marker positive_prompt_g l) positive_prompt_l).
Proof.
  intros Hp Hs Hg Hl Hnodup.
  destruct (advanced_positive format t prompt g l positive_prompt_g
              positive_prompt_l negative_prompt negative_prompt_to true Hp Hs)
    as (r & Hr & _ & Htl & _).
  exists r. split; [exact Hr |]. rewrite Htl. cbn zeta. rewrite Hg, Hl. cbn [andb negb].
  unfold claimed_copy_to_l. cbn zeta. now rewrite deduplicate_nodup.
Qed.

(** C3, at the input where the code and the claim part.  The template
    ["{prompt} . {prompt}"] with an empty global text and the local text
    ["x"]: the local template is not empty, so the code joins with a comma
    although the replaced text is empty, and returns [", x"]; the rule the
    claim states, applied to the replaced text, gives ["x"]. *)
Theorem local_join_on_empty_replacement :
  exists r,
    read_sdxl_templates_replace_and_combine_advanced format_atom
      (VList [template_record "s" "{prompt} . {prompt}" ""])
      "s" "" "x" "" "Both" false = Ok r
    /\ text_g_positive r = ""
    /\ text_l_positive r = ", x"
    /\ text_positive r = " . , x"
    /\ split_template_advanced "{prompt} . {prompt}" = Ok ("{prompt}", "{prompt}")
    /\ claimed_text_l "{prompt}" "" "x" = "x".
Proof. eexists. repeat split. Qed.

(** C4, at the input where the code and the claim part.  The template
    ["{prompt} . x"] with the global text ["red"], the local text
    ["red, red"] and copy_to_l: the local tokens are [x], [red], [red]; the
    loop removes the first [red] only, and the result is ["red, x, red"];
    removing every local token that is a global token gives ["red, x"]. *)
Theorem copy_to_l_repeated_token :
  exists r,
    read_sdxl_templates_replace_and_combine_advanced format_atom
      (VList [template_record "s" "{prompt} . x" ""])
      "s" "red" "red, red" "" "Both" true = Ok r
    /\ text_g_positive r = "red"
    /\ tokens "x, red, red" = ["x"; "red"; "red"]
    /\ deduplicate (tokens "red") (tokens "x, red, red") = ["x"; "red"]
    /\ text_l_positive r = "red, x, red"
    /\ claimed_copy_to_l "red" "x, red, red" = "red, x".
Proof. eexists. repeat split. Qed.

(** * The spec's sample runs, and runs that raise *)

Example basic_sample :
  read_sdxl_templates_replace_and_combine format_atom
    (VList [template_record "s" "a {prompt} b" "n1"]) "s" "X" "n2"
  = Ok ("a X b", VStr "n1, n2").
Proof. reflexivity. Qed.

Example basic_no_leading_comma :
  read_sdxl_templates_replace_and_combine format_atom
    (VList [template_record "s" "a {prompt} b" ""]) "s" "X" "n2"
  = Ok ("a X b", VStr "n2").
Proof. reflexivity. Qed.

Example basic_missing_negative_prompt :
  read_sdxl_templates_replace_and_combine format_atom
    (VList [short_record]) "A" "X" "n2"
  = Ok ("X", VStr "n2").
Proof. reflexivity. Qed.

Example advanced_sample :
  read_sdxl_templates_replace_and_combine_advanced format_atom
    (VList [template_record "s" "G {prompt} . L {prompt}" ""])
    "s" "cat" "sitting" "" "Both" false
  = Ok {| text_g_positive := "G cat";
          text_l_positive := "L cat, sitting";
          text_positive := "G cat . L cat, sitting";
          text_g_negative := VStr "";
          text_l_negative := VStr "";
          text_negative := VStr "" |}.
Proof. reflexivity. Qed.

Example advanced_copy_to_l :
  read_sdxl_templates_replace_and_combine_advanced format_atom
    (VList [template_record "s" "{prompt} . cat,  red , big" "n1"])
    "s" "red, cat" "x" "" "L only" true
  = Ok {| text_g_positive := "red, cat";
          text_l_positive := "red, cat, big, x";
          text_positive := "red, cat . red, cat, big, x";
          text_g_negative := VStr "";
          text_l_negative := VStr "n1";
          text_negative := VStr "n1" |}.
Proof. reflexivity. Qed.

(** A list element that is not a container makes the validation raise, and a
    string that happens to contain both field names gets through the
    validation and makes the lookup raise. *)
Example validation_raises :
  validate_json_data (VList [VInt 5]) = Raise TypeError
  /\ read_sdxl_templates_replace_and_combine format_atom
       (VList [VInt 5]) "s" "X" "n" = Raise TypeError.
Proof. split; reflexivity. Qed.

Example lookup_raises :
  validate_json_data (VList [VStr "name, prompt"]) = Ok true
  /\ read_sdxl_templates_replace_and_combine format_atom
       (VList [VStr "name, prompt"]) "s" "X" "n" = Raise TypeError.
Proof. split; reflexivity. Qed.

(** A template renamed earlier can take the name of a later one, which then
    gets a suffix although no file has its name twice. *)
Example renamed_name_taken :
  load_styles_from_directory format_atom 3
    [json_file "a.json"
       (VList [template_record "B" "{prompt}" ""; template_record "B" "{prompt}" "";
               template_record "B_1" "{prompt}" ""])]
  = Some (Ok ([template_record "B" "{prompt}" ""; template_record "B_1" "{prompt}" "";
               template_record "B_1_1" "{prompt}" ""],
              [VStr "B"; VStr "B_1"; VStr "B_1_1"])).
Proof. reflexivity. Qed.

(** * The theorems at concrete inputs *)

Lemma format_atom_str (s : string) : format_atom (VStr s) = s.
Proof. reflexivity. Defined.

Lemma combine_basic_found_witness :
  read_sdxl_templates_replace_and_combine format_atom
    (VList [template_record "s" "a {prompt} b" "n1"]) "s" "X" "n2"
  = Ok ("a X b", VStr "n1, n2").
Proof.
  exact (proj1 (combine_basic_found format_atom format_atom_str
                  (VList [template_record "s" "a {prompt} b" "n1"]) "s"
                  (template_record "s" "a {prompt} b" "n1")
                  "a {prompt} b" "n1" "X" "n2"
                  eq_refl eq_refl eq_refl eq_refl)).
Defined.

Lemma negative_routing_witness :
  exists r,
    read_sdxl_templates_replace_and_combine_advanced format_atom
      (VList [template_record "s" "G {prompt} . L {prompt}" "n1"])
      "s" "cat" "sitting" "n2" "G only" false = Ok r
    /\ text_negative r = VStr "n1, n2"
    /\ text_g_negative r = VStr "n1, n2"
    /\ text_l_negative r = VStr "".
Proof.
  destruct (negative_routing format_atom
              (VList [template_record "s" "G {prompt} . L {prompt}" "n1"]) "s"
              (template_record "s" "G {prompt} . L {prompt}" "n1")
              "G {prompt} . L {prompt}" "cat" "sitting" "n2" "G only" false
              eq_refl eq_refl eq_refl)
    as (r & jn & Hr & Hj & Hn & _ & HG & _).
  exists r. injection Hj as <-. destruct (HG eq_refl) as [Hg Hl].
  split; [exact Hr |]. split; [exact Hn |]. split; [| exact Hl].
  rewrite Hg. exact Hn.
Defined.

Lemma negative_routing_other_witness :
  exists r,
    read_sdxl_templates_replace_and_combine_advanced format_atom
      (VList [template_record "s" "G {prompt} . L {prompt}" "n1"])
      "s" "cat" "sitting" "n2" "Neither" false = Ok r
    /\ text_g_negative r = VStr ""
    /\ text_l_negative r = VStr ""
    /\ text_negative r = VStr "n1, n2".
Proof.
  destruct (negative_routing_other format_atom format_atom_str
              (VList [template_record "s" "G {prompt} . L {prompt}" "n1"]) "s"
              (template_record "s" "G {prompt} . L {prompt}" "n1")
              "G {prompt} . L {prompt}" "cat" "sitting" "n2" "Neither" false
              eq_refl eq_refl eq_refl)
    as (r & jn & Hr & Hg & Hl & Hj & _ & Hn); try discriminate.
  exists r. injection Hj as <-.
  split; [exact Hr |]. split; [exact Hg |]. split; [exact Hl |].
  exact (Hn "n1" eq_refl).
Defined.

Lemma split_template_advanced_witness :
  (exists a b,
     "G {prompt}  .  L {prompt}" = a +:+ separator +:+ b
     /\ split_template_advanced "G {prompt}  .  L {prompt}"
        = Ok (Str.strip a, Str.strip b))
  /\ split_template_advanced "{prompt}. " = Ok ("{prompt}. ", "").
Proof.
  split.
  - destruct (proj1 (split_template_advanced_spec "G {prompt}  .  L {prompt}")
                eq_refl) as (a & b & Hcut & _ & H & _).
    exists a, b. split; [exact Hcut | exact H].
  - exact (proj2 (split_template_advanced_spec "{prompt}. ") eq_refl).
Defined.



Lemma two_files_records :
  Forall (fun t => str_named t = true) (loaded_records two_files).
Proof. repeat constructor. Defined.

Lemma load_styles_from_directory_witness :
  load_styles_from_directory format_atom 2 two_files
  = Some (Ok ([template_record "A" "{prompt}" "";
               template_record "A_1" "photo of {prompt}" "blurry"],
              [VStr "A"; VStr "A_1"])).
Proof.
  destruct (load_styles_from_directory_spec format_atom two_files
              format_atom_str two_files_records)
    as (styles & Hload & _ & _ & _ & _ & Hnames).
  rewrite (Hload 2 (le_n 2)), (Hnames eq_refl). reflexivity.
Defined.

Lemma read_json_file_records_witness :
  read_json_file (entry_file short_file) = None
  /\ read_json_file
       (entry_file (json_file "a.json" (VList [template_record "A" "{prompt}" ""])))
     = Some (VList [template_record "A" "{prompt}" ""]).
Proof.
  split.
  - exact (proj1 (proj2 (proj2 (read_json_file_records (entry_file short_file))))
             [short_record] eq_refl eq_refl
             ltac:(repeat constructor)).
  - exact (proj1 (proj2 (proj2 (read_json_file_records
             (entry_file (json_file "a.json"
                (VList [template_record "A" "{prompt}" ""]))))))
             [template_record "A" "{prompt}" ""] eq_refl eq_refl
             ltac:(repeat constructor)).
Defined.

(** * Where the spec says more than the code does *)

(** C2 as stated fails on the name: the loader takes a template with the
    empty name as it is. *)
Lemma empty_name_loaded :
  load_styles_from_directory format_atom 1 unnamed_file
  = Some (Ok ([template_record "" "{prompt}" ""], [VStr ""]))
  /\ ~ (forall fuel store names,
          load_styles_from_directory format_atom fuel unnamed_file
          = Some (Ok (store, names)) ->
          Forall (fun n => n <> VStr "") names).
Proof.
  split; [reflexivity |]. intros H.
  specialize (H 1 _ _ eq_refl). inversion H as [|? ? Hne _]. now apply Hne.
Qed.

(** C9 as stated fails on [negative_prompt]: a file of records that have
    [name] and [prompt] only passes [validate_json_data] but is rejected by
    the loader, and the store stays empty. *)
Lemma short_record_rejected :
  validate_json_data (VList [short_record]) = Ok true
  /\ read_json_file (entry_file short_file) = None
  /\ load_styles_from_directory format_atom 1 [short_file] = Some (Ok ([], [])).
Proof. repeat split. Qed.

(** * Further facts about the loader *)

Lemma dict_lookup_store_ne (k k' : string) (v : value)
  (kv : list (string * value)) :
  k' <> k -> dict_lookup k' (dict_store k v kv) = dict_lookup k' kv.
Proof.
  intros Hne.
  assert (Hkk : String.eqb k k' = false) by (apply String.eqb_neq; congruence).
  induction kv as [|[k0 v0] kv IH]; cbn; [now rewrite Hkk |].
  destruct (String.eqb_spec k0 k) as [-> | Hk]; cbn; [| now rewrite IH].
  now rewrite Hkk.
Qed.

Lemma dict_store_same (k : string) (v : value) (kv : list (string * value)) :
  dict_lookup k kv = Some v -> dict_store k v kv = kv.
Proof.
  induction kv as [|[k0 v0] kv IH]; cbn; [discriminate |].
  destruct (String.eqb_spec k0 k) as [-> | Hk].
  - now intros [= ->].
  - intros H. now rewrite IH.
Qed.

Lemma has_all_fields_complete (t : value) :
  has_all_fields t = Ok true -> isdict t = true -> complete_record t = true.
Proof.
  destruct t as [| | | | |kv]; try discriminate. intros H _.
  unfold has_all_fields in H. cbn in H |- *.
  destruct (dict_lookup "name" kv); [| discriminate].
  destruct (dict_lookup "prompt" kv); [| discriminate].
  now destruct (dict_lookup "negative_prompt" kv).
Qed.

Lemma mapM_all_true {A : Type} (f : A -> result bool) (l : list A)
  (checks : list bool) :
  mapM f l = Ok checks -> forallb (fun b : bool => b) checks = true ->
  Forall (fun x => f x = Ok true) l.
Proof.
  revert checks. induction l as [|x l IH]; intros checks H Hall; [constructor |].
  cbn in H. destruct (f x) as [b | e] eqn:Ef; [| discriminate]. cbn in H.
  destruct (mapM f l) as [bs | e]; [| discriminate]. cbn in H.
  injection H as <-. cbn in Hall. apply andb_prop in Hall as [-> Hall].
  constructor; [exact Ef | now apply (IH bs)].
Qed.

(** Every item the loader takes from a file passed the three membership
    tests. *)
Lemma file_records_checked (f : file) :
  Forall (fun t => has_all_fields t = Ok true) (file_records f).
Proof.
  unfold file_records, read_json_file.
  destruct (readable f); cbn; [| constructor].
  destruct (content f) as [c |]; [| constructor].
  destruct (py_iter c) as [items | e] eqn:Ei; cbn; [| constructor].
  destruct (mapM has_all_fields items) as [checks | e] eqn:Em; [| constructor].
  destruct (forallb _ checks) eqn:Ec; [| constructor].
  destruct (truthy c); [| constructor]. rewrite Ei.
  now apply (mapM_all_true _ _ checks).
Qed.

Lemma loaded_records_checked (directory : list entry) :
  Forall (fun t => has_all_fields t = Ok true) (loaded_records directory).
Proof.
  unfold loaded_records.
  induction (get_all_json_files directory) as [|f files IH]; [constructor |].
  cbn. apply Forall_app. split; [apply file_records_checked | exact IH].
Qed.

Section LoaderShape.

Variable format : value -> string.

Lemma rename_ok_not_fuel (fuel : nat) (seen : list value)
  (original_style style : value) (suffix : N) (s : value) :
  rename format fuel seen original_style style suffix = Some (Ok s) ->
  set_in s seen = Ok false.
Proof.
  revert style suffix. induction fuel as [|fuel IH]; intros style suffix;
    [discriminate |].
  cbn. destruct (set_in style seen) as [[|] | e] eqn:E; try discriminate.
  - apply IH.
  - now intros [= <-].
Qed.

(** One turn of the loop over the items appends the item, renamed, to the
    store. *)
Lemma load_item_shape (fuel : nat) (st st' : loaded) (item : value) :
  load_item format fuel st item = Some (Ok st') ->
  exists t', name_set item t'
    /\ combined_data st' = combined_data st ++ [t'].
Proof.
  unfold load_item. destruct item as [| | | | |kv]; try discriminate. cbn.
  destruct (dict_lookup "name" kv) as [original |]; [| discriminate].
  destruct (rename format fuel (seen st) original original 1)
    as [[style | e] |]; try discriminate.
  intros [= <-]. eexists. split; [exists kv, style; split; reflexivity |].
  reflexivity.
Qed.

Lemma load_items_shape (fuel : nat) (items : list value) :
  forall st st',
  load_items format fuel st items = Some (Ok st') ->
  exists new, Forall2 name_set items new
    /\ combined_data st' = combined_data st ++ new.
Proof.
  induction items as [|item items IH]; intros st st' H.
  - injection H as <-. exists []. split; [constructor | now rewrite app_nil_r].
  - cbn in H. destruct (load_item format fuel st item) as [[st1 | e] |] eqn:E;
      try discriminate.
    destruct (load_item_shape _ _ _ _ E) as (t' & Ht & Hc).
    destruct (IH _ _ H) as (new & Hnew & Hc').
    exists (t' :: new). split; [now constructor |].
    now rewrite Hc', Hc, <- app_assoc.
Qed.

(** The loader's result is made of the accepted files' records in order,
    each with something stored under [name], and of the names read off
    them. *)
Lemma load_shape (fuel : nat) (directory : list entry)
  (store names : list value) :
  load_styles_from_directory format fuel directory = Some (Ok (store, names)) ->
  Forall2 name_set (loaded_records directory) store
  /\ names = names_of store.
Proof.
  unfold load_styles_from_directory. rewrite load_files_records.
  destruct (load_items format fuel _ _) as [[st | e] |] eqn:E; try discriminate.
  intros [= <- <-]. split; [| reflexivity].
  destruct (load_items_shape _ _ _ _ E) as (new & Hnew & Hc).
  cbn in Hc. now rewrite Hc.
Qed.

End LoaderShape.

Lemma name_set_complete (t t' : value) :
  name_set t t' -> has_all_fields t = Ok true -> complete_record t' = true.
Proof.
  intros (kv & style & -> & ->) H.
  apply has_all_fields_complete in H; [| reflexivity]. cbn in H |- *.
  rewrite dict_lookup_store, !dict_lookup_store_ne by discriminate.
  destruct (dict_lookup "name" kv); [| discriminate].
  exact H.
Qed.

Lemma name_set_all_complete (l l' : list value) :
  Forall2 name_set l l' ->
  Forall (fun t => has_all_fields t = Ok true) l ->
  Forall (fun t => complete_record t = true) l'.
Proof.
  induction 1 as [|t t' l l' Ht _ IH]; intros Hl; [constructor |].
  inversion Hl; subst. constructor; [| now apply IH].
  now apply (name_set_complete t).
Qed.

Lemma complete_validate (l : list value) :
  Forall (fun t => complete_record t = true) l ->
  validate_json_data (VList l) = Ok true.
Proof.
  intros H. rewrite validate_records.
  - f_equal. induction H as [|t l Ht _ IH]; [reflexivity |]. cbn.
    rewrite IH, andb_true_r. destruct t as [| | | | |kv]; try discriminate.
    cbn in Ht |- *. destruct (dict_lookup "name" kv); [| discriminate].
    destruct (dict_lookup "prompt" kv); [reflexivity | discriminate].
  - induction H as [|t l Ht _ IH]; constructor; [now destruct t | exact IH].
Qed.

Lemma complete_names (l : list value) :
  Forall (fun t => complete_record t = true) l ->
  length (names_of l) = length l.
Proof.
  induction 1 as [|t l Ht _ IH]; [reflexivity |].
  destruct t as [| | | | |kv]; try discriminate. cbn in Ht |- *.
  destruct (dict_lookup "name" kv); [cbn; now rewrite IH | discriminate].
Qed.

(** What the loader returns passes the validation. *)
Lemma loaded_store_shape_valid (format : value -> string) (fuel : nat)
  (directory : list entry) (store names : list value) :
  load_styles_from_directory format fuel directory = Some (Ok (store, names)) ->
  validate_json_data (VList store) = Ok true
  /\ Forall (fun t => complete_record t = true) store.
Proof.
  intros H. destruct (load_shape format _ _ _ _ H) as [Hshape _].
  assert (Hc : Forall (fun t => complete_record t = true) store)
    by exact (name_set_all_complete _ _ Hshape
                (loaded_records_checked directory)).
  split; [now apply complete_validate | exact Hc].
Qed.

(** X1.  Whatever the directory holds, a store the loader returns consists
    of records that have [name], [prompt] and [negative_prompt]; it passes
    [validate_json_data], and the list of names has one name for each
    template. *)
Theorem loaded_store_valid (format : value -> string) (fuel : nat)
  (directory : list entry) (store names : list value) :
  load_styles_from_directory format fuel directory = Some (Ok (store, names)) ->
  Forall (fun t => complete_record t = true) store
  /\ validate_json_data (VList store) = Ok true
  /\ length names = length store.
Proof.
  intros H. destruct (loaded_store_shape_valid format _ _ _ _ H) as [Hv Hc].
  destruct (load_shape format _ _ _ _ H) as [_ ->].
  split; [exact Hc |]. split; [exact Hv |]. now apply complete_names.
Qed.

(** X2.  The loader touches nothing but [name]: the store has the accepted
    files' records in directory-listing order, and every other field of a
    template reads as it does in the file. *)
Theorem loaded_fields_kept (format : value -> string) (fuel : nat)
  (directory : list entry) (store names : list value) :
  load_styles_from_directory format fuel directory = Some (Ok (store, names)) ->
  length store = length (loaded_records directory)
  /\ forall i t t' k,
       loaded_records directory !! i = Some t ->
       store !! i = Some t' ->
       k <> "name" ->
       getitem t' k = getitem t k /\ py_in k t' = py_in k t.
Proof.
  intros H. destruct (load_shape format _ _ _ _ H) as [Hshape _].
  split; [symmetry; now apply (Forall2_length _ _ _ Hshape) |].
  intros i t t' k Ht Ht' Hk.
  destruct (Forall2_lookup_lr _ _ _ _ _ _ Hshape Ht Ht')
    as (kv & style & -> & ->).
  cbn. now rewrite dict_lookup_store_ne.
Qed.

Section LoaderRuns.

Variable format : value -> string.
Hypothesis format_str : forall s, format (VStr s) = s.

(** The run of the loader on a directory whose accepted records are
    records with a string name. *)
Lemma load_run (fuel : nat) (directory : list entry) :
  Forall (fun t => str_named t = true) (loaded_records directory) ->
  length (loaded_records directory) <= fuel ->
  exists styles,
    load_styles_from_directory format fuel directory
    = Some (Ok (zip_with with_name (loaded_records directory) styles,
                map VStr styles))
    /\ renamed [] (map name_of (loaded_records directory)) styles.
Proof.
  intros Hrecords Hfuel.
  destruct (load_items_spec format format_str fuel (loaded_records directory)
              {| combined_data := []; seen := [] |} [] eq_refl Hrecords
              ltac:(cbn; lia)) as (styles & Hload & Hren).
  exists styles. split; [| exact Hren].
  unfold load_styles_from_directory. rewrite load_files_records.
  change (flat_map file_records (get_all_json_files directory))
    with (loaded_records directory).
  rewrite Hload. cbn. rewrite names_of_with_name; [reflexivity | exact Hrecords |].
  rewrite (renamed_length _ _ _ Hren). apply length_map.
Qed.

End LoaderRuns.

Lemma renamed_distinct (earlier ns ss : list string) :
  renamed earlier ns ss ->
  NoDup ns -> (forall n, In n ns -> ~ In n earlier) -> ss = ns.
Proof.
  induction 1 as [|earlier n s ns ss Hs _ IH]; intros Hd Hfree; [reflexivity |].
  inversion Hd as [|? ? Hn Hd']; subst.
  assert (s = n) as ->.
  { destruct Hs as [_ | k Hin]; [reflexivity |].
    destruct (Hfree n); [now left | exact Hin]. }
  f_equal. apply IH; [exact Hd' |].
  intros m Hm Hin. apply in_app_or in Hin as [Hin | [<- | []]].
  - apply (Hfree m); [now right | exact Hin].
  - apply Hn. now apply list_elem_of_In.
Qed.

Lemma with_name_own (t : value) :
  str_named t = true -> with_name t (name_of t) = t.
Proof.
  destruct t as [| | | | |kv]; try discriminate. cbn.
  destruct (dict_lookup "name" kv) as [[| | |n| |]|] eqn:E; try discriminate.
  intros _. now rewrite dict_store_same.
Qed.

Lemma with_name_own_all (l : list value) :
  Forall (fun t => str_named t = true) l ->
  zip_with with_name l (map name_of l) = l.
Proof.
  induction 1 as [|t l Ht _ IH]; [reflexivity |].
  cbn. now rewrite IH, with_name_own.
Qed.

Lemma load_distinct (format : value -> string) (fuel : nat)
  (directory : list entry) :
  (forall s, format (VStr s) = s) ->
  Forall (fun t => str_named t = true) (loaded_records directory) ->
  NoDup (map name_of (loaded_records directory)) ->
  length (loaded_records directory) <= fuel ->
  load_styles_from_directory format fuel directory
  = Some (Ok (loaded_records directory,
              map VStr (map name_of (loaded_records directory)))).
Proof.
  intros Hf Hrecords Hdistinct Hfuel.
  destruct (load_run format Hf fuel directory Hrecords Hfuel)
    as (styles & -> & Hren).
  apply renamed_distinct in Hren as ->; [| exact Hdistinct | now intros n _ []].
  now rewrite with_name_own_all.
Qed.

(** X3.  When the names in the accepted files are strings that are pairwise
    distinct, the loader changes nothing: the store is the files' records
    as they are, and the names are theirs. *)
Theorem distinct_names_kept (format : value -> string) (fuel : nat)
  (directory : list entry) :
  (forall s, format (VStr s) = s) ->
  Forall (fun t => str_named t = true) (loaded_records directory) ->
  NoDup (map name_of (loaded_records directory)) ->
  length (loaded_records directory) <= fuel ->
  load_styles_from_directory format fuel directory
  = Some (Ok (loaded_records directory,
              map VStr (map name_of (loaded_records directory)))).
Proof. exact (load_distinct format fuel directory). Qed.

(** The template at a position of the store carries the style at that
    position. *)
Lemma with_name_named (t : value) (s : string) :
  str_named t = true ->
  exists kv, with_name t s = VDict kv /\ dict_lookup "name" kv = Some (VStr s).
Proof.
  destruct t as [| | | | |kv]; try discriminate. intros _.
  eexists. split; [reflexivity | apply dict_lookup_store].
Qed.

Lemma find_in_position (records : list value) (styles : list string) :
  Forall (fun t => str_named t = true) records ->
  length styles = length records ->
  NoDup styles ->
  forall i s, styles !! i = Some s ->
  exists t, zip_with with_name records styles !! i = Some t
    /\ find_in (zip_with with_name records styles) s = Ok (Some t).
Proof.
  intros Hrecords. revert styles.
  induction Hrecords as [|r records Hr _ IH]; intros [|x styles] Hlen Hd i s Hi;
    try discriminate.
  apply NoDup_cons in Hd as [Hx Hd].
  destruct (with_name_named r x Hr) as (kv & Hkv & Hname).
  cbn [zip_with find_in]. rewrite Hkv. cbn [getitem]. rewrite Hname. cbn [bind eq_str].
  destruct i as [|i]; cbn in Hi.
  - injection Hi as ->. rewrite String.eqb_refl. eexists. split; reflexivity.
  - assert (String.eqb x s = false) as ->.
    { apply String.eqb_neq. intros ->. apply Hx.
      now apply list_elem_of_lookup_2 in Hi. }
    cbn. apply IH; [now injection Hlen | exact Hd | exact Hi].
Qed.

(** X4.  Every style the loader lists is found again in the store, and it is
    the template at the same position: with a listed style the basic
    combiner does not pass the text through but applies that template. *)
Theorem listed_style_found (format : value -> string) (fuel : nat)
  (directory : list entry) :
  (forall s, format (VStr s) = s) ->
  Forall (fun t => str_named t = true) (loaded_records directory) ->
  length (loaded_records directory) <= fuel ->
  exists store names,
    load_styles_from_directory format fuel directory = Some (Ok (store, names))
    /\ forall i n, names !! i = Some n ->
       exists style t,
         n = VStr style
         /\ store !! i = Some t
         /\ find_template_by_name (VList store) style = Ok (Some t)
         /\ forall positive_prompt negative_prompt,
              read_sdxl_templates_replace_and_combine format (VList store) style
                positive_prompt negative_prompt
              = replace_prompts_in_template format t positive_prompt
                  negative_prompt.
Proof.
  intros Hf Hrecords Hfuel.
  destruct (load_run format Hf fuel directory Hrecords Hfuel)
    as (styles & Hload & Hren).
  eexists _, _. split; [exact Hload |].
  intros i n Hi. apply list_lookup_fmap_Some in Hi as (style & -> & Hi).
  assert (Hlen : length styles = length (loaded_records directory)).
  { rewrite (renamed_length _ _ _ Hren). apply length_map. }
  destruct (find_in_position _ _ Hrecords Hlen
              (proj1 (renamed_fresh _ _ _ Hren)) i style Hi) as (t & Ht & Hfind).
  exists style, t. split; [reflexivity |]. split; [exact Ht |].
  split; [exact Hfind |]. intros positive_prompt negative_prompt.
  apply basic_found; [| exact Hfind].
  now destruct (loaded_store_shape_valid format fuel directory _ _ Hload).
Qed.

Lemma get_all_json_files_app (d1 d2 : list entry) :
  get_all_json_files (d1 ++ d2) = get_all_json_files d1 ++ get_all_json_files d2.
Proof. unfold get_all_json_files. now rewrite List.filter_app, map_app. Qed.

Lemma loaded_records_app (d1 d2 : list entry) :
  loaded_records (d1 ++ d2) = loaded_records d1 ++ loaded_records d2.
Proof.
  unfold loaded_records. now rewrite get_all_json_files_app, flat_map_app.
Qed.

Lemma skipped_no_records (e : entry) : skipped e -> loaded_records [e] = [].
Proof.
  unfold loaded_records, get_all_json_files. cbn.
  intros [H | [H | [H | (c & H & Hc)]]].
  - now rewrite H.
  - rewrite H. now rewrite andb_false_r.
  - destruct (_ && _); [| reflexivity]. cbn. unfold file_records. now rewrite H.
  - destruct (_ && _); [| reflexivity]. cbn. unfold file_records.
    now rewrite H, Hc.
Qed.

(** The loader's result is a function of the accepted files' records. *)
Lemma load_by_records (format : value -> string) (fuel : nat)
  (d1 d2 : list entry) :
  loaded_records d1 = loaded_records d2 ->
  load_styles_from_directory format fuel d1
  = load_styles_from_directory format fuel d2.
Proof.
  intros H. unfold load_styles_from_directory. rewrite !load_files_records.
  unfold loaded_records in H. now rewrite H.
Qed.

(** X5.  Skip and continue: an entry that is not a regular [.json] file, a
    file that cannot be read or parsed or that [read_json_file] rejects,
    and a file with empty content can stand anywhere in the directory
    without changing what the loader returns. *)
Theorem skipped_entry_ignored (format : value -> string) (fuel : nat)
  (before after : list entry) (e : entry) :
  skipped e ->
  load_styles_from_directory format fuel (before ++ e :: after)
  = load_styles_from_directory format fuel (before ++ after).
Proof.
  intros H. apply load_by_records.
  change (e :: after) with ([e] ++ after).
  now rewrite !loaded_records_app, (skipped_no_records e H).
Qed.

(** X6.  A directory in which every entry is skipped gives the empty store
    and the empty list of names, with any bound on the renaming loop. *)
Theorem nothing_to_load (format : value -> string) (fuel : nat)
  (directory : list entry) :
  Forall skipped directory ->
  load_styles_from_directory format fuel directory = Some (Ok ([], [])).
Proof.
  intros H.
  rewrite (load_by_records format fuel directory []); [reflexivity |].
  induction H as [|e directory He _ IH]; [reflexivity |].
  change (e :: directory) with ([e] ++ directory).
  now rewrite loaded_records_app, (skipped_no_records e He).
Qed.

(** X7.  The [try] of [read_json_file] does not cover the loop over the
    items: when the accepted files hold, behind records with string names,
    an item that is not a dict, [load_styles_from_directory] raises
    TypeError. *)
Theorem loader_raises_on_non_record (format : value -> string) (fuel : nat)
  (directory : list entry) (records rest : list value) (item : value) :
  (forall s, format (VStr s) = s) ->
  loaded_records directory = records ++ item :: rest ->
  Forall (fun t => str_named t = true) records ->
  isdict item = false ->
  length records <= fuel ->
  load_styles_from_directory format fuel directory = Some (Raise TypeError).
Proof.
  intros Hf Hsplit Hrecords Hitem Hfuel.
  unfold load_styles_from_directory. rewrite load_files_records.
  change (flat_map file_records (get_all_json_files directory))
    with (loaded_records directory).
  rewrite Hsplit, load_items_app.
  destruct (load_items_spec format Hf fuel records
              {| combined_data := []; seen := [] |} [] eq_refl Hrecords
              ltac:(cbn; lia)) as (styles & -> & _).
  cbn [load_items]. unfold load_item.
  now destruct item.
Qed.

(** * Further facts about the lookup and the combiners *)

Lemma typed_validate (l : list value) :
  Forall (fun t => typed_template t = true) l ->
  validate_json_data (VList l) = Ok true.
Proof.
  intros H. rewrite validate_records.
  - f_equal. induction H as [|t l Ht _ IH]; [reflexivity |]. cbn.
    rewrite IH, andb_true_r. destruct t as [| | | | |kv]; try discriminate.
    cbn in Ht |- *. destruct (dict_lookup "name" kv); [| discriminate].
    destruct (dict_lookup "prompt" kv); [reflexivity | discriminate].
  - induction H as [|t l Ht _ IH]; constructor; [now destruct t | exact IH].
Qed.

Lemma typed_prompt (t : value) :
  typed_template t = true -> exists prompt, getitem t "prompt" = Ok (VStr prompt).
Proof.
  destruct t as [| | | | |kv]; try discriminate. cbn.
  destruct (dict_lookup "name" kv); [| discriminate].
  destruct (dict_lookup "prompt" kv) as [[| | |p| |]|]; try discriminate. eauto.
Qed.

(** On typed templates the lookup returns: nothing, or a template of the
    store. *)
Lemma find_in_typed (l : list value) (n : string) :
  Forall (fun t => typed_template t = true) l ->
  find_in l n = Ok None
  \/ exists t, find_in l n = Ok (Some t) /\ typed_template t = true.
Proof.
  induction 1 as [|t l Ht _ IH]; [now left |].
  cbn [find_in]. destruct t as [| | | | |kv] eqn:Et; try discriminate.
  cbn in Ht |- *. destruct (dict_lookup "name" kv) as [v |] eqn:Ev;
    [| discriminate]. cbn.
  destruct (eq_str v n); [| exact IH].
  right. eexists. split; [reflexivity |]. cbn. now rewrite Ev.
Qed.

Lemma typed_combine_basic (format : value -> string) (l : list value)
  (template_name positive_prompt negative_prompt : string) :
  Forall (fun t => typed_template t = true) l ->
  exists positive negative,
    read_sdxl_templates_replace_and_combine format (VList l) template_name
      positive_prompt negative_prompt = Ok (positive, negative).
Proof.
  intros Hl. unfold read_sdxl_templates_replace_and_combine.
  rewrite (typed_validate l Hl). cbn.
  destruct (find_in_typed l template_name Hl) as [-> | (t & -> & Ht)]; cbn;
    [eauto |].
  destruct (typed_prompt t Ht) as (prompt & Hp).
  assert (truthy t = true) as -> by (destruct t as [| | | | |[|]]; easy).
  unfold replace_prompts_in_template. rewrite Hp. cbn.
  destruct (getitem_dict_get _ _ _ Hp "negative_prompt" (VStr "")) as (w & ->).
  cbn. eauto.
Qed.

(** X8.  On a store of records that have a [name] and a string [prompt] the
    basic combiner raises nothing, whatever name is asked for: it returns
    the pair it was given when no template has the name, and otherwise what
    the first template with the name makes of it. *)
Theorem combine_basic_returns (format : value -> string) (l : list value)
  (template_name positive_prompt negative_prompt : string) :
  Forall (fun t => typed_template t = true) l ->
  exists positive negative,
    read_sdxl_templates_replace_and_combine format (VList l) template_name
      positive_prompt negative_prompt = Ok (positive, negative)
    /\ ((find_in l template_name = Ok None
         /\ positive = positive_prompt /\ negative = VStr negative_prompt)
        \/ exists t prompt,
             find_in l template_name = Ok (Some t)
             /\ getitem t "prompt" = Ok (VStr prompt)
             /\ positive = Str.replace marker positive_prompt prompt).
Proof.
  intros Hl. unfold read_sdxl_templates_replace_and_combine.
  rewrite (typed_validate l Hl). cbn.
  destruct (find_in_typed l template_name Hl) as [-> | (t & -> & Ht)]; cbn.
  - eexists _, _. split; [reflexivity |]. left. now repeat split.
  - destruct (typed_prompt t Ht) as (prompt & Hp).
    assert (truthy t = true) as -> by (destruct t as [| | | | |[|]]; easy).
    unfold replace_prompts_in_template. rewrite Hp. cbn.
    destruct (getitem_dict_get _ _ _ Hp "negative_prompt" (VStr "")) as (w & ->).
    cbn. eexists _, _. split; [reflexivity |]. right. now exists t, prompt.
Qed.

(** X9.  On such a store the advanced combiner raises nothing either. *)
Theorem combine_advanced_returns (format : value -> string) (l : list value)
  (template_name positive_prompt_g positive_prompt_l negative_prompt
     negative_prompt_to : string) (copy_to_l : bool) :
  Forall (fun t => typed_template t = true) l ->
  exists r,
    read_sdxl_templates_replace_and_combine_advanced format (VList l)
      template_name positive_prompt_g positive_prompt_l negative_prompt
      negative_prompt_to copy_to_l = Ok r.
Proof.
  intros Hl. unfold read_sdxl_templates_replace_and_combine_advanced.
  rewrite (typed_validate l Hl). cbn.
  destruct (find_in_typed l template_name Hl) as [-> | (t & -> & Ht)]; cbn;
    [eauto |].
  destruct (typed_prompt t Ht) as (prompt & Hp).
  assert (truthy t = true) as -> by (destruct t as [| | | | |[|]]; easy).
  destruct (advanced_negative format t prompt positive_prompt_g positive_prompt_l
              negative_prompt negative_prompt_to copy_to_l Hp) as (r & _ & -> & _).
  eauto.
Qed.

(** X10.  The lookup returns the first template with the name: what comes
    behind it, another template of that name or an item that is no record,
    plays no part. *)
Theorem find_first_match (before after : list value) (t : value) (n : string) :
  Forall (fun x => exists v, getitem x "name" = Ok v /\ eq_str v n = false)
    before ->
  getitem t "name" = Ok (VStr n) ->
  find_template_by_name (VList (before ++ t :: after)) n = Ok (Some t).
Proof.
  intros Hbefore Ht. unfold find_template_by_name. cbn.
  induction Hbefore as [|x before (v & Hv & Hne) _ IH]; cbn.
  - rewrite Ht. cbn. now rewrite String.eqb_refl.
  - rewrite Hv. cbn. now rewrite Hne.
Qed.

Lemma names_of_in (l : list value) (kv : list (string * value)) (v : value) :
  In (VDict kv) l -> dict_lookup "name" kv = Some v -> In v (names_of l).
Proof.
  induction l as [|x l IH]; [intros [] |]. intros [-> | Hin] Hv; cbn.
  - rewrite Hv. now left.
  - specialize (IH Hin Hv). destruct x as [| | | | |kv']; auto.
    destruct (dict_lookup "name" kv'); [now right | exact IH].
Qed.

(** X11.  The names [read_sdxl_styles] lists and the lookup agree: a name the
    lookup finds is listed, and on a list of records that all have a name, a
    listed name is found. *)
Theorem listed_iff_found (json_data : value) (n : string) :
  (forall t, find_template_by_name json_data n = Ok (Some t) ->
     In (VStr n) (read_sdxl_styles json_data))
  /\ (forall l,
        json_data = VList l ->
        Forall (fun x => exists v, getitem x "name" = Ok v) l ->
        In (VStr n) (read_sdxl_styles json_data) ->
        exists t, find_template_by_name json_data n = Ok (Some t)).
Proof.
  split.
  - intros t H. apply find_some in H as (l & kv & -> & Hin & -> & Hname).
    cbn. now apply (names_of_in l kv).
  - intros l -> Hl. unfold find_template_by_name. cbn.
    induction Hl as [|x l (v & Hv) _ IH]; cbn; [intros [] |].
    destruct x as [| | | | |kv]; try discriminate. cbn in Hv |- *.
    destruct (dict_lookup "name" kv) as [w |]; [| discriminate]. cbn.
    destruct (eq_str w n) eqn:E; [eauto |].
    intros [-> | Hin]; [| now apply IH].
    cbn in E. now rewrite String.eqb_refl in E.
Qed.

Lemma count_list_remove (t x : string) (l : list string) :
  count t (list_remove x l)
  = count t l - (if String.eqb x t then 1 else 0).
Proof.
  induction l as [|y l IH]; [reflexivity |]. cbn.
  destruct (String.eqb_spec y x) as [-> | Hyx].
  - destruct (String.eqb x t); lia.
  - cbn. rewrite IH. destruct (String.eqb_spec x t) as [-> | Hxt]; [| lia].
    assert (String.eqb y t = false) as -> by now apply String.eqb_neq.
    lia.
Qed.

Lemma list_remove_sublist (x : string) (l : list string) :
  sublist (list_remove x l) l.
Proof.
  induction l as [|y l IH]; [constructor |]. cbn.
  destruct (String.eqb y x); [now apply sublist_cons | now apply sublist_skip].
Qed.

Lemma list_remove_first (x : string) (front back : list string) :
  ~ In x front -> list_remove x (front ++ x :: back) = front ++ back.
Proof.
  induction front as [|y front IH]; intros H; cbn.
  - now rewrite String.eqb_refl.
  - assert (String.eqb y x = false) as ->.
    { apply String.eqb_neq. intros ->. apply H. now left. }
    rewrite IH; [reflexivity |]. intros Hin. apply H. now right.
Qed.

(** X12.  What the loop over the global tokens leaves of the local tokens:
    it keeps their order and adds nothing; of every token it takes away as
    many copies as there are among the global tokens (all of them when
    there are fewer); and the copy a global token takes away is the first
    one. *)
Theorem deduplicate_counts (token_g token_l : list string) :
  sublist (deduplicate token_g token_l) token_l
  /\ (forall t,
        count t (deduplicate token_g token_l)
        = count t token_l - count t token_g)
  /\ (forall x front back,
        token_g = [x] -> token_l = front ++ x :: back -> ~ In x front ->
        deduplicate token_g token_l = front ++ back).
Proof.
  split; [| split].
  3: { intros x front back -> -> Hfront. unfold deduplicate. cbn.
       assert (list_in x (front ++ x :: back) = true) as ->.
       { apply list_in_spec, in_or_app. right. now left. }
       now apply list_remove_first. }
  all: unfold deduplicate; revert token_l;
    induction token_g as [|x token_g IH]; intros token_l; cbn;
    [reflexivity || (intros t; lia) |].
  - etransitivity; [apply IH |].
    destruct (list_in x token_l); [apply list_remove_sublist | reflexivity].
  - intros t. rewrite IH.
    destruct (list_in x token_l) eqn:E.
    + rewrite count_list_remove. lia.
    + destruct (String.eqb_spec x t) as [-> | Hxt]; [| lia].
      assert (count t token_l = 0) as ->; [| lia].
      clear -E. induction token_l as [|y l IH]; [reflexivity |].
      unfold list_in in *. cbn in E |- *.
      rewrite String.eqb_sym in E. apply orb_false_elim in E as [-> E].
      now rewrite IH.
Qed.

(** X13.  On a template without [" . "], with no local text and without
    copy_to_l, the advanced combiner is the basic one: its global and its
    combined positive text are the basic positive text, the local one is
    empty, and its combined negative text is the basic negative text. *)
Theorem advanced_is_basic (format : value -> string) (json_data : value)
  (template_name : string) (t : value) (prompt : string)
  (positive_prompt negative_prompt negative_prompt_to : string) :
  validate_json_data json_data = Ok true ->
  find_template_by_name json_data template_name = Ok (Some t) ->
  getitem t "prompt" = Ok (VStr prompt) ->
  Str.contains separator prompt = false ->
  exists positive negative r,
    read_sdxl_templates_replace_and_combine format json_data template_name
      positive_prompt negative_prompt = Ok (positive, negative)
    /\ read_sdxl_templates_replace_and_combine_advanced format json_data
         template_name positive_prompt "" negative_prompt negative_prompt_to
         false = Ok r
    /\ text_g_positive r = positive
    /\ text_l_positive r = ""
    /\ text_positive r = positive
    /\ text_negative r = negative.
Proof.
  intros Hv Hf Hp Hsep.
  rewrite (basic_found format _ _ _ _ _ Hv Hf),
    (advanced_found format _ _ _ _ _ _ _ _ Hv Hf).
  unfold replace_prompts_in_template, replace_prompts_in_template_advanced,
    split_template_advanced.
  rewrite Hp. cbn [bind]. rewrite Hsep. cbn [bind fst snd].
  destruct (getitem_dict_get _ _ _ Hp "negative_prompt" (VStr "")) as (w & ->).
  cbn. eexists _, _, _. repeat split.
Qed.

(** X14.  With both style switches off the basic node returns the two texts
    it was given, on every store of records with a [name] and a string
    [prompt]; it prints nothing unless log_prompt is set. *)
Theorem prompt_styler_switched_off (format : value -> string) (l : list value)
  (text_positive text_negative style : string) (log_prompt : bool) :
  Forall (fun t => typed_template t = true) l ->
  exists printed,
    prompt_styler format (VList l) text_positive text_negative style
      log_prompt false false
    = Ok (text_positive, VStr text_negative, printed)
    /\ (log_prompt = false -> printed = []).
Proof.
  intros Hl. unfold prompt_styler.
  destruct (typed_combine_basic format l style text_positive text_negative Hl)
    as (p & n & ->).
  cbn. eexists. split; [reflexivity |]. now intros ->.
Qed.

(** X16.  A template whose [negative_prompt] is null, false, zero or an
    empty string, list or object counts as having none: the negative text
    of both combiners is the user's. *)
Theorem falsy_negative_prompt (format : value -> string) (json_data : value)
  (template_name : string) (t : value) (prompt : string)
  (json_negative_prompt : value)
  (positive_prompt_g positive_prompt_l negative_prompt negative_prompt_to : string)
  (copy_to_l : bool) :
  validate_json_data json_data = Ok true ->
  find_template_by_name json_data template_name = Ok (Some t) ->
  getitem t "prompt" = Ok (VStr prompt) ->
  getitem t "negative_prompt" = Ok json_negative_prompt ->
  truthy json_negative_prompt = false ->
  read_sdxl_templates_replace_and_combine format json_data template_name
    positive_prompt_g negative_prompt
  = Ok (Str.replace marker positive_prompt_g prompt, VStr negative_prompt)
  /\ exists r,
       read_sdxl_templates_replace_and_combine_advanced format json_data
         template_name positive_prompt_g positive_prompt_l negative_prompt
         negative_prompt_to copy_to_l = Ok r
       /\ text_negative r = VStr negative_prompt.
Proof.
  intros Hv Hf Hp Hn Hfalsy.
  assert (Hget : dict_get t "negative_prompt" (VStr "") = Ok json_negative_prompt).
  { destruct t as [| | | | |kv]; try discriminate. cbn in Hn |- *.
    destruct (dict_lookup "negative_prompt" kv); [| discriminate].
    now injection Hn as ->. }
  assert (Hmerge : merge_negative format json_negative_prompt negative_prompt
                   = VStr negative_prompt).
  { unfold merge_negative. now rewrite Hfalsy. }
  split.
  - rewrite (basic_found format _ _ _ _ _ Hv Hf).
    unfold replace_prompts_in_template. rewrite Hp. cbn [bind]. rewrite Hget.
    cbn [bind]. now rewrite Hmerge.
  - rewrite (advanced_found format _ _ _ _ _ _ _ _ Hv Hf).
    destruct (advanced_negative format t prompt positive_prompt_g
                positive_prompt_l negative_prompt negative_prompt_to copy_to_l Hp)
      as (r & jn & Hr & Hj & Hneg & _).
    exists r. split; [exact Hr |]. rewrite Hneg.
    rewrite Hget in Hj. injection Hj as <-. exact Hmerge.
Qed.

Lemma startswith_app_r (p s r : string) :
  Str.startswith p s = true -> Str.startswith p (s +:+ r) = true.
Proof.
  revert s. induction p as [|x p IH]; intros s H; [reflexivity |].
  destruct s as [|y s]; [discriminate |]. cbn in H |- *.
  destruct (Ascii.eqb x y); [now apply IH | discriminate].
Qed.

Lemma none_before_absent (sub a rest : string) :
  sub <> "" ->
  none_before sub (String.length a) (a +:+ rest) -> Str.contains sub a = false.
Proof.
  intros Hsub. induction a as [|c a IH]; intros H.
  - cbn. destruct sub; [congruence | reflexivity].
  - change (String c a +:+ rest) with (String c (a +:+ rest)) in H.
    apply none_before_tail in H as [H0 H]. cbn [Str.contains].
    rewrite (IH H), orb_false_r.
    destruct (Str.startswith sub (String c a)) eqn:E; [| reflexivity].
    apply (startswith_app_r _ _ rest) in E. cbn in E. congruence.
Qed.

Lemma contains_inside (sub w1 s w2 : string) :
  Str.contains sub s = true -> Str.contains sub (w1 +:+ s +:+ w2) = true.
Proof.
  rewrite !contains_true. intros (a & b & ->).
  exists (w1 +:+ a), (b +:+ w2). now rewrite !app_assoc_str.
Qed.

(** X15.  The global part the advanced split returns never contains
    [" . "], so splitting it again returns it unchanged with an empty local
    part. *)
Theorem split_global_part (template g l : string) :
  split_template_advanced template = Ok (g, l) ->
  Str.contains separator g = false
  /\ split_template_advanced g = Ok (g, "").
Proof.
  intros H.
  assert (Hg : Str.contains separator g = false).
  { unfold split_template_advanced in H.
    destruct (Str.contains separator template) eqn:E;
      [| now injection H as <- _].
    destruct (split1_first separator template separator_nonempty E)
      as (a & b & -> & Hfirst & Hsplit).
    rewrite Hsplit in H. injection H as <- _.
    apply (none_before_absent _ _ _ separator_nonempty) in Hfirst.
    destruct (Str.contains separator (Str.strip a)) eqn:Es; [| reflexivity].
    destruct (strip_trimmed a) as (w1 & w2 & Ha & _).
    apply (contains_inside _ w1 _ w2) in Es. rewrite <- Ha in Es. congruence. }
  split; [exact Hg |]. unfold split_template_advanced. now rewrite Hg.
Qed.

Lemma read_json_file_content (f : file) (c : value) :
  read_json_file f = Some c -> content f = Some c.
Proof.
  unfold read_json_file. destruct (readable f); [| discriminate]. cbn.
  destruct (content f) as [c' |]; [| discriminate].
  destruct (bind _ _) as [checks | e]; [| discriminate].
  destruct (forallb _ _); [| discriminate]. now intros [= ->].
Qed.

Lemma char_item_fails (c : ascii) :
  has_all_fields (VStr (String c "")) = Ok false.
Proof.
  unfold has_all_fields, py_in. cbn [Str.contains Str.startswith].
  now destruct (Ascii.eqb "n" c).
Qed.

Lemma mapM_keys (kv : list (string * value)) :
  mapM has_all_fields (map (fun p => VStr (fst p)) kv)
  = Ok (map (fun p => key_passes (fst p)) kv).
Proof.
  induction kv as [|[k v] kv IH]; [reflexivity |].
  cbn [map mapM fst]. rewrite IH.
  unfold has_all_fields, py_in, key_passes. cbn [bind].
  destruct (Str.contains "name" k); [| reflexivity].
  destruct (Str.contains "prompt" k); [| reflexivity].
  now destruct (Str.contains "negative_prompt" k).
Qed.

Lemma read_json_file_object (f : file) (kv : list (string * value)) :
  readable f = true -> content f = Some (VDict kv) ->
  read_json_file f
  = if forallb (fun p => key_passes (fst p)) kv then Some (VDict kv) else None.
Proof.
  intros Hr Hc. unfold read_json_file. rewrite Hr, Hc.
  cbn [negb py_iter bind]. rewrite mapM_keys. now rewrite forallb_map_id.
Qed.

Lemma read_json_file_unreadable (f : file) :
  readable f = false -> read_json_file f = None.
Proof. unfold read_json_file. now intros ->. Qed.

(** X17.  Only a top-level array brings templates in.  A file whose parsed
    content is null, a boolean, a number or a string is skipped.  A
    top-level object is skipped when it is empty or one of its keys lacks
    one of the three field names as a substring; when it is not empty and
    every key contains the three, and the file is a readable regular
    [.json] file, it is not skipped: the loader raises TypeError. *)
Theorem only_arrays_load (e : entry) (c : value) :
  content (entry_file e) = Some c ->
  (forall l, c <> VList l) ->
  (isdict c = false -> skipped e)
  /\ (forall kv,
        c = VDict kv ->
        kv = [] \/ forallb (fun p => key_passes (fst p)) kv = false ->
        skipped e)
  /\ (forall kv,
        c = VDict kv ->
        kv <> [] ->
        forallb (fun p => key_passes (fst p)) kv = true ->
        Str.endswith ".json" (entry_name e) = true ->
        entry_isfile e = true ->
        readable (entry_file e) = true ->
        ~ skipped e
        /\ forall format fuel,
             load_styles_from_directory format fuel [e]
             = Some (Raise TypeError)).
Proof.
  intros Hc Hl. split; [| split].
  - intros Hnd. right. right.
    destruct (readable (entry_file e)) eqn:Er;
      [| left; now apply read_json_file_unreadable].
    unfold read_json_file. rewrite Er, Hc. cbn [negb].
    destruct c as [| | |s|l|kv]; try discriminate; try (now left);
      [| now destruct (Hl l)].
    destruct s as [|ch s].
    + right. now exists (VStr "").
    + left. cbn [py_iter chars bind mapM]. rewrite char_item_fails.
      cbn [bind]. now destruct (mapM has_all_fields (chars s)).
  - intros kv -> Hkv. right. right.
    destruct (readable (entry_file e)) eqn:Er;
      [| left; now apply read_json_file_unreadable].
    rewrite (read_json_file_object _ kv Er Hc).
    destruct Hkv as [-> | ->]; [| now left].
    right. now exists (VDict []).
  - intros kv -> Hkv Hkeys Hname Hfile Hr.
    pose proof (read_json_file_object _ kv Hr Hc) as Hread.
    rewrite Hkeys in Hread.
    assert (Htruthy : truthy (VDict kv) = true) by now destruct kv.
    split.
    + intros [H | [H | [H | (c' & H & Hf)]]]; congruence.
    + intros format fuel.
      unfold load_styles_from_directory, get_all_json_files.
      cbn [List.filter]. rewrite Hname, Hfile.
      cbn [andb map load_files]. unfold load_file.
      rewrite Hread, Htruthy. cbn [py_iter].
      destruct kv as [|[k v] kv]; [congruence | reflexivity].
Qed.

(** X18.  copy_to_l changes nothing when the global text is empty, on any
    store, and nothing for a template whose local part holds the marker. *)
Theorem copy_to_l_without_effect (format : value -> string) (json_data : value)
  (template_name positive_prompt_g positive_prompt_l negative_prompt
     negative_prompt_to : string) :
  positive_prompt_g = ""
  \/ (exists t prompt g l,
        find_template_by_name json_data template_name = Ok (Some t)
        /\ getitem t "prompt" = Ok (VStr prompt)
        /\ split_template_advanced prompt = Ok (g, l)
        /\ Str.contains marker l = true) ->
  read_sdxl_templates_replace_and_combine_advanced format json_data
    template_name positive_prompt_g positive_prompt_l negative_prompt
    negative_prompt_to true
  = read_sdxl_templates_replace_and_combine_advanced format json_data
      template_name positive_prompt_g positive_prompt_l negative_prompt
      negative_prompt_to false.
Proof.
  intros H. unfold read_sdxl_templates_replace_and_combine_advanced.
  destruct (validate_json_data json_data) as [[|] | e]; cbn; try reflexivity.
  destruct H as [-> | (t & prompt & g & l & Hf & Hp & Hs & Hl)].
  - destruct (find_template_by_name json_data template_name) as [o | e]; cbn;
      [| reflexivity].
    destruct (found o) as [t |]; [| reflexivity].
    unfold replace_prompts_in_template_advanced.
    destruct (getitem t "prompt") as [p | e]; cbn [bind]; [| reflexivity].
    destruct (match p with VStr s => _ | _ => _ end) as [parts | e];
      reflexivity.
  - rewrite Hf. cbn [bind]. rewrite (found_find _ _ _ Hf).
    unfold replace_prompts_in_template_advanced.
    rewrite Hp. cbn [bind]. rewrite Hs. cbn [bind fst snd]. rewrite Hl.
    now rewrite andb_false_r.
Qed.

Lemma with_name_str_named (t : value) (s : string) :
  str_named t = true ->
  str_named (with_name t s) = true /\ name_of (with_name t s) = s.
Proof.
  destruct t as [| | | | |kv]; try discriminate. intros _. cbn.
  now rewrite dict_lookup_store.
Qed.

Lemma zip_with_name_named (records : list value) (styles : list string) :
  Forall (fun t => str_named t = true) records ->
  length styles = length records ->
  Forall (fun t => str_named t = true) (zip_with with_name records styles)
  /\ map name_of (zip_with with_name records styles) = styles.
Proof.
  intros H. revert styles.
  induction H as [|t records Ht _ IH]; intros [|s styles] Hlen;
    try discriminate; [split; [constructor | reflexivity] |].
  destruct (IH styles ltac:(now injection Hlen)) as [Hall Hmap].
  destruct (with_name_str_named t s Ht) as [Hs Hn].
  cbn. split; [now constructor | now rewrite Hn, Hmap].
Qed.

Lemma read_json_file_complete (l : list value) :
  Forall (fun t => complete_record t = true) l ->
  read_json_file {| readable := true; content := Some (VList l) |}
  = Some (VList l).
Proof.
  intros H. unfold read_json_file. cbn.
  rewrite mapM_has_all_fields, forallb_map_id.
  - replace (forallb complete_record l) with true; [reflexivity |].
    symmetry. induction H as [|t l Ht _ IH]; [reflexivity |]. cbn.
    now rewrite Ht.
  - induction H as [|t l Ht _ IH]; constructor; [now destruct t | exact IH].
Qed.

(** X20.  What the loader returns is stable under loading: a directory whose
    one style file holds the store of an earlier run gives that store and
    those names again. *)
Theorem reload_stable (format : value -> string) (fuel : nat)
  (directory : list entry) (store names : list value) (name : string) :
  (forall s, format (VStr s) = s) ->
  Forall (fun t => str_named t = true) (loaded_records directory) ->
  length (loaded_records directory) <= fuel ->
  load_styles_from_directory format fuel directory = Some (Ok (store, names)) ->
  Str.endswith ".json" name = true ->
  load_styles_from_directory format fuel [json_file name (VList store)]
  = Some (Ok (store, names)).
Proof.
  intros Hf Hrecords Hfuel Hload Hname.
  destruct (loaded_store_shape_valid format _ _ _ _ Hload) as [_ Hcomplete].
  destruct (load_run format Hf fuel directory Hrecords Hfuel)
    as (styles & Hrun & Hren).
  rewrite Hrun in Hload. injection Hload as <- <-.
  assert (Hlen : length styles = length (loaded_records directory)).
  { rewrite (renamed_length _ _ _ Hren). apply length_map. }
  destruct (zip_with_name_named _ _ Hrecords Hlen) as [Hnamed Hnames].
  set (store := zip_with with_name (loaded_records directory) styles) in *.
  assert (Hstore : loaded_records [json_file name (VList store)] = store).
  { unfold loaded_records, get_all_json_files. cbn. rewrite Hname. cbn.
    unfold file_records. rewrite (read_json_file_complete store Hcomplete).
    rewrite app_nil_r. now destruct store. }
  rewrite (load_distinct format fuel _ Hf); rewrite Hstore.
  - now rewrite Hnames.
  - exact Hnamed.
  - rewrite Hnames. apply (renamed_fresh _ _ _ Hren).
  - unfold store. rewrite length_zip_with. lia.
Qed.

(** * The further theorems at concrete inputs *)

Lemma loaded_store_valid_witness :
  Forall (fun t => complete_record t = true) two_store
  /\ validate_json_data (VList two_store) = Ok true
  /\ length [VStr "A"; VStr "A_1"] = length two_store.
Proof.
  exact (loaded_store_valid format_atom 2 two_files two_store
           [VStr "A"; VStr "A_1"] eq_refl).
Defined.

Lemma loaded_fields_kept_witness :
  getitem (template_record "A_1" "photo of {prompt}" "blurry") "prompt"
  = getitem (template_record "A" "photo of {prompt}" "blurry") "prompt".
Proof.
  exact (proj1 (proj2 (loaded_fields_kept format_atom 2 two_files two_store
                         [VStr "A"; VStr "A_1"] eq_refl)
                  1 _ _ "prompt" eq_refl eq_refl ltac:(discriminate))).
Defined.

Lemma distinct_files_records :
  Forall (fun t => str_named t = true) (loaded_records distinct_files).
Proof. repeat constructor. Defined.

Lemma distinct_files_names : NoDup (map name_of (loaded_records distinct_files)).
Proof.
  apply NoDup_cons. split; [| apply NoDup_singleton].
  intros H. apply list_elem_of_singleton in H. discriminate.
Defined.

Lemma distinct_names_kept_witness :
  load_styles_from_directory format_atom 2 distinct_files
  = Some (Ok ([template_record "A" "{prompt}" "";
               template_record "B" "photo of {prompt}" "blurry"],
              [VStr "A"; VStr "B"])).
Proof.
  exact (distinct_names_kept format_atom 2 distinct_files format_atom_str
           distinct_files_records distinct_files_names (le_n 2)).
Defined.

Lemma listed_style_found_witness :
  exists store names,
    load_styles_from_directory format_atom 2 two_files = Some (Ok (store, names))
    /\ forall i n, names !! i = Some n ->
       exists style t,
         n = VStr style
         /\ store !! i = Some t
         /\ find_template_by_name (VList store) style = Ok (Some t)
         /\ forall positive_prompt negative_prompt,
              read_sdxl_templates_replace_and_combine format_atom (VList store)
                style positive_prompt negative_prompt
              = replace_prompts_in_template format_atom t positive_prompt
                  negative_prompt.
Proof.
  exact (listed_style_found format_atom 2 two_files format_atom_str
           two_files_records (le_n 2)).
Defined.

Lemma skipped_entry_ignored_witness :
  load_styles_from_directory format_atom 1 mixed_directory
  = load_styles_from_directory format_atom 1
      [json_file "a.json" (VList [template_record "A" "{prompt}" ""])]
  /\ load_styles_from_directory format_atom 1 mixed_directory
     = Some (Ok ([template_record "A" "{prompt}" ""], [VStr "A"])).
Proof.
  split; [| reflexivity]. unfold mixed_directory.
  etransitivity.
  { apply (skipped_entry_ignored format_atom 1 []). right. now left. }
  etransitivity.
  { apply (skipped_entry_ignored format_atom 1 []). right. right. now left. }
  etransitivity.
  { apply (skipped_entry_ignored format_atom 1
             [json_file "a.json" (VList [template_record "A" "{prompt}" ""])]).
    right. right. now left. }
  apply (skipped_entry_ignored format_atom 1
           [json_file "a.json" (VList [template_record "A" "{prompt}" ""])] []).
  now left.
Defined.

Lemma nothing_to_load_witness :
  load_styles_from_directory format_atom 0
    [json_file "notes.txt" (VList [template_record "B" "{prompt}" ""]);
     json_file "empty.json" (VList []);
     short_file]
  = Some (Ok ([], [])).
Proof.
  apply nothing_to_load.
  constructor; [now left |].
  constructor; [right; right; right; now exists (VList []) |].
  constructor; [right; right; now left | constructor].
Defined.

Lemma loader_raises_on_non_record_witness :
  load_styles_from_directory format_atom 0 string_item_file
  = Some (Raise TypeError).
Proof.
  exact (loader_raises_on_non_record format_atom 0 string_item_file []
           [] (VStr "name prompt negative_prompt") format_atom_str eq_refl
           ltac:(constructor) eq_refl (le_n 0)).
Defined.

Lemma two_store_typed : Forall (fun t => typed_template t = true) two_store.
Proof. repeat constructor. Defined.

Lemma combine_basic_returns_witness :
  exists positive negative,
    read_sdxl_templates_replace_and_combine format_atom (VList two_store)
      "A_1" "cat" "dark" = Ok (positive, negative)
    /\ ((find_in two_store "A_1" = Ok None
         /\ positive = "cat" /\ negative = VStr "dark")
        \/ exists t prompt,
             find_in two_store "A_1" = Ok (Some t)
             /\ getitem t "prompt" = Ok (VStr prompt)
             /\ positive = Str.replace marker "cat" prompt).
Proof.
  exact (combine_basic_returns format_atom two_store "A_1" "cat" "dark"
           two_store_typed).
Defined.

Lemma combine_advanced_returns_witness :
  exists r,
    read_sdxl_templates_replace_and_combine_advanced format_atom
      (VList two_store) "missing" "cat" "sitting" "dark" "Both" true = Ok r.
Proof.
  exact (combine_advanced_returns format_atom two_store "missing" "cat"
           "sitting" "dark" "Both" true two_store_typed).
Defined.

Lemma find_first_match_witness :
  find_template_by_name
    (VList [template_record "A" "{prompt}" "";
            template_record "B" "first {prompt}" "";
            template_record "B" "second {prompt}" ""; VInt 5]) "B"
  = Ok (Some (template_record "B" "first {prompt}" "")).
Proof.
  apply (find_first_match [template_record "A" "{prompt}" ""]
           [template_record "B" "second {prompt}" ""; VInt 5]
           (template_record "B" "first {prompt}" "") "B").
  - constructor; [| constructor]. exists (VStr "A"). now split.
  - reflexivity.
Defined.

Lemma listed_iff_found_witness :
  exists t, find_template_by_name (VList two_store) "A_1" = Ok (Some t).
Proof.
  apply (proj2 (listed_iff_found (VList two_store) "A_1") two_store eq_refl).
  - repeat constructor; eexists; reflexivity.
  - right. now left.
Defined.

Lemma deduplicate_counts_witness :
  count "red" (deduplicate ["red"] ["x"; "red"; "red"]) = 1
  /\ deduplicate ["red"] ["x"; "red"; "red"] = ["x"; "red"].
Proof.
  split.
  - exact (proj1 (proj2 (deduplicate_counts ["red"] ["x"; "red"; "red"])) "red").
  - apply (proj2 (proj2 (deduplicate_counts ["red"] ["x"; "red"; "red"]))
             "red" ["x"] ["red"] eq_refl eq_refl).
    intros [H | []]. discriminate.
Defined.

Lemma advanced_is_basic_witness :
  exists positive negative r,
    read_sdxl_templates_replace_and_combine format_atom (VList two_store)
      "A_1" "cat" "dark" = Ok (positive, negative)
    /\ read_sdxl_templates_replace_and_combine_advanced format_atom
         (VList two_store) "A_1" "cat" "" "dark" "L only" false = Ok r
    /\ text_g_positive r = positive
    /\ text_l_positive r = ""
    /\ text_positive r = positive
    /\ text_negative r = negative.
Proof.
  exact (advanced_is_basic format_atom (VList two_store) "A_1"
           (template_record "A_1" "photo of {prompt}" "blurry")
           "photo of {prompt}" "cat" "dark" "L only"
           eq_refl eq_refl eq_refl eq_refl).
Defined.

Lemma prompt_styler_switched_off_witness :
  exists printed,
    prompt_styler format_atom (VList two_store) "cat" "dark" "A_1"
      false false false
    = Ok ("cat", VStr "dark", printed)
    /\ (false = false -> printed = []).
Proof.
  exact (prompt_styler_switched_off format_atom two_store "cat" "dark" "A_1"
           false two_store_typed).
Defined.

Lemma split_global_part_witness :
  Str.contains separator "a" = false
  /\ split_template_advanced "a" = Ok ("a", "").
Proof.
  exact (split_global_part " a  .  b . c" "a" "b . c" eq_refl).
Defined.

Lemma falsy_negative_prompt_witness :
  read_sdxl_templates_replace_and_combine format_atom (VList [null_negative])
    "s" "cat" "dark"
  = Ok ("a cat", VStr "dark").
Proof.
  exact (proj1 (falsy_negative_prompt format_atom (VList [null_negative]) "s"
                  null_negative "a {prompt}" VNone "cat" "" "dark" "Both" false
                  eq_refl eq_refl eq_refl eq_refl eq_refl)).
Defined.

Lemma only_arrays_load_witness :
  ~ skipped object_file
  /\ forall format fuel,
       load_styles_from_directory format fuel [object_file]
       = Some (Raise TypeError).
Proof.
  apply (proj2 (proj2 (only_arrays_load object_file
                         (VDict [("name prompt negative_prompt", VList [])])
                         eq_refl ltac:(discriminate)))
           [("name prompt negative_prompt", VList [])] eq_refl);
    (discriminate || reflexivity).
Defined.

Lemma copy_to_l_without_effect_witness :
  read_sdxl_templates_replace_and_combine_advanced format_atom
    (VList two_store) "A_1" "" "sitting" "dark" "Both" true
  = read_sdxl_templates_replace_and_combine_advanced format_atom
      (VList two_store) "A_1" "" "sitting" "dark" "Both" false.
Proof.
  exact (copy_to_l_without_effect format_atom (VList two_store) "A_1" ""
           "sitting" "dark" "Both" (or_introl eq_refl)).
Defined.

Lemma reload_stable_witness :
  load_styles_from_directory format_atom 2
    [json_file "merged.json" (VList two_store)]
  = Some (Ok (two_store, [VStr "A"; VStr "A_1"])).
Proof.
  exact (reload_stable format_atom 2 two_files two_store
           [VStr "A"; VStr "A_1"] "merged.json" format_atom_str
           two_files_records (le_n 2) eq_refl eq_refl).
Defined.

(** * The split on strings of code points *)

Lemma isspace_whitespace (c : N) :
  UStr.isspace c = true <-> In c UStr.whitespace.
Proof.
  unfold UStr.isspace. rewrite existsb_exists. split.
  - intros (x & Hx & E). apply N.eqb_eq in E. now subst.
  - intros H. exists c. split; [exact H | apply N.eqb_refl].
Qed.

Lemma startswith_app_unicode (p s : list N) : UStr.startswith p (p ++ s) = true.
Proof. induction p as [|x p IH]; cbn; [reflexivity | now rewrite N.eqb_refl]. Qed.

Lemma startswith_split_unicode (p s : list N) :
  UStr.startswith p s = true -> s = p ++ drop (length p) s.
Proof.
  revert s. induction p as [|x p IH]; intros s H; [reflexivity |].
  destruct s as [|y s]; [discriminate |]. cbn in H.
  destruct (N.eqb_spec x y) as [-> | _]; [| discriminate].
  cbn. f_equal. now apply IH.
Qed.

Lemma drop_prefix_unicode (p s : list N) : drop (length p) (p ++ s) = s.
Proof. induction p as [|x p IH]; [reflexivity | exact IH]. Qed.

(** The cut of [split(sep, 1)] is at the first occurrence. *)
Lemma split1_at_first_unicode (sep a b : list N) :
  sep <> [] ->
  none_before_unicode sep (length a) (a ++ sep ++ b) ->
  UStr.split1 sep (a ++ sep ++ b) = [a; b].
Proof.
  intros Hsep. induction a as [|c a IH]; intros H.
  - cbn [app]. destruct sep as [|x sep]; [congruence |].
    cbn [app UStr.split1].
    change (x :: sep ++ b) with ((x :: sep) ++ b).
    rewrite startswith_app_unicode. now rewrite drop_prefix_unicode.
  - pose proof (H 0 ltac:(cbn; lia)) as H0. cbn [drop app] in H0.
    cbn [app UStr.split1]. rewrite H0.
    rewrite IH; [reflexivity |].
    intros i Hi. apply (H (S i)). cbn. lia.
Qed.

Lemma contains_first_unicode (sep s : list N) :
  sep <> [] -> UStr.contains sep s = true ->
  exists a b, s = a ++ sep ++ b /\ none_before_unicode sep (length a) s.
Proof.
  intros Hsep. induction s as [|c s IH]; intros H.
  - cbn in H. destruct sep; [congruence | discriminate].
  - destruct (UStr.startswith sep (c :: s)) eqn:E.
    + exists [], (drop (length sep) (c :: s)).
      split; [now apply startswith_split_unicode | intros i Hi; cbn in Hi; lia].
    + cbn [UStr.contains] in H. rewrite E in H. cbn in H.
      destruct (IH H) as (a & b & -> & Hn).
      exists (c :: a), b. split; [reflexivity |].
      intros [|i] Hi; [exact E |]. apply Hn. cbn in Hi. lia.
Qed.

Lemma lstrip_spec_unicode (s : list N) :
  exists w, s = w ++ UStr.lstrip s
    /\ Forall (fun c => In c UStr.whitespace) w
    /\ (forall c rest, UStr.lstrip s = c :: rest -> ~ In c UStr.whitespace).
Proof.
  induction s as [|c s (w & Hs & Hw & Hh)].
  - exists []. repeat split; [constructor | discriminate].
  - cbn [UStr.lstrip]. destruct (UStr.isspace c) eqn:E.
    + exists (c :: w). split; [cbn [app]; f_equal; exact Hs |].
      split; [| exact Hh]. constructor; [now apply isspace_whitespace | exact Hw].
    + exists []. repeat split; [constructor |].
      intros c' rest [= <- _] Hin. apply isspace_whitespace in Hin. congruence.
Qed.

Lemma rstrip_spec_unicode (s : list N) :
  exists w, s = UStr.rstrip s ++ w
    /\ Forall (fun c => In c UStr.whitespace) w
    /\ (forall c front, UStr.rstrip s = front ++ [c] -> ~ In c UStr.whitespace).
Proof.
  induction s as [|c s (w & Hs & Hw & Hl)].
  - exists []. repeat split; [constructor |]. intros c front H.
    now destruct front.
  - cbn [UStr.rstrip]. destruct (UStr.rstrip s) as [|d r] eqn:E.
    + cbn [app] in Hs. subst s. destruct (UStr.isspace c) eqn:Ec.
      * exists (c :: w). split; [reflexivity |]. split.
        -- constructor; [now apply isspace_whitespace | exact Hw].
        -- intros c' front H. now destruct front.
      * exists w. split; [reflexivity |]. split; [exact Hw |].
        intros c' front H Hin. destruct front as [|x [|y front]];
          try discriminate.
        injection H as <-. apply isspace_whitespace in Hin. congruence.
    + exists w. split; [cbn [app]; f_equal; exact Hs |]. split; [exact Hw |].
      intros c' front H. destruct front as [|x front]; [discriminate |].
      injection H as _ H. now apply (Hl c' front).
Qed.

Lemma rstrip_head_unicode (s : list N) (c : N) (rest : list N) :
  UStr.rstrip s = c :: rest -> exists rest', s = c :: rest'.
Proof.
  destruct s as [|x s]; [discriminate |]. cbn [UStr.rstrip].
  destruct (UStr.rstrip s).
  - destruct (UStr.isspace x); [discriminate |]. intros [= <- _]. eauto.
  - intros [= <- _]. eauto.
Qed.

Lemma strip_trimmed_unicode (s : list N) : trimmed_unicode s (UStr.strip s).
Proof.
  unfold UStr.strip.
  destruct (lstrip_spec_unicode s) as (w1 & Hs & Hw1 & Hh).
  destruct (rstrip_spec_unicode (UStr.lstrip s)) as (w2 & Hs' & Hw2 & Hl).
  exists w1, w2. split; [now rewrite <- Hs' |].
  split; [exact Hw1 |]. split; [exact Hw2 |]. split; [| exact Hl].
  intros c rest H. destruct (rstrip_head_unicode _ _ _ H) as (rest' & H').
  now apply (Hh c rest').
Qed.

Lemma separator_codes_nonempty : UStr.codes separator <> [].
Proof. discriminate. Qed.

(** C6.  On every prompt, a string of code points: when the prompt holds
    [" . "], the split cuts it at the first occurrence, whichever way the
    prompt is written as a text, the separator and a rest with no
    occurrence starting in the text, and returns the two sides with the
    white space taken off both ends of each; white space being the code
    points of [UStr.whitespace], those Python's [strip] removes.  When the
    prompt does not hold [" . "], the split returns the prompt itself,
    untouched, and the empty string. *)
Theorem split_template_advanced_unicode_spec (template : list N) :
  (forall a b,
     template = a ++ UStr.codes separator ++ b ->
     none_before_unicode (UStr.codes separator) (length a) template ->
     split_template_advanced_unicode template
     = Ok (UStr.strip a, UStr.strip b)
     /\ trimmed_unicode a (UStr.strip a)
     /\ trimmed_unicode b (UStr.strip b))
  /\ (UStr.contains (UStr.codes separator) template = true ->
      exists a b,
        template = a ++ UStr.codes separator ++ b
        /\ none_before_unicode (UStr.codes separator) (length a) template)
  /\ ((forall a b, template <> a ++ UStr.codes separator ++ b) ->
      split_template_advanced_unicode template = Ok (template, []))
  /\ (forall c, UStr.isspace c = true <->
        (9 <= c <= 13 \/ 28 <= c <= 32 \/ c = 133 \/ c = 160 \/ c = 5760
         \/ 8192 <= c <= 8202 \/ c = 8232 \/ c = 8233 \/ c = 8239
         \/ c = 8287 \/ c = 12288)%N).
Proof.
  split; [| split; [| split]].
  - intros a b -> Hfirst. split; [| split; apply strip_trimmed_unicode].
    unfold split_template_advanced_unicode.
    rewrite (split1_at_first_unicode _ a b separator_codes_nonempty Hfirst).
    assert (UStr.contains (UStr.codes separator)
              (a ++ UStr.codes separator ++ b) = true) as ->; [| reflexivity].
    clear Hfirst. induction a as [|c a IH]; [reflexivity |].
    cbn [app UStr.contains]. rewrite IH. apply orb_true_r.
  - apply contains_first_unicode, separator_codes_nonempty.
  - intros Hnone. unfold split_template_advanced_unicode.
    destruct (UStr.contains (UStr.codes separator) template) eqn:E;
      [| reflexivity].
    destruct (contains_first_unicode _ _ separator_codes_nonempty E)
      as (a & b & Heq & _).
    now destruct (Hnone a b).
  - intros c. rewrite isspace_whitespace. unfold UStr.whitespace. cbn [In].
    split.
    + intros H. repeat (destruct H as [<- | H]; [lia |]). destruct H.
    + intros H.
      assert (Hc : (c < 12289)%N) by lia.
      repeat (destruct H as [H | H]); try (subst c; tauto).
      * assert (c = 9 \/ c = 10 \/ c = 11 \/ c = 12 \/ c = 13)%N
          as [-> | [-> | [-> | [-> | ->]]]] by lia; tauto.
      * assert (c = 28 \/ c = 29 \/ c = 30 \/ c = 31 \/ c = 32)%N
          as [-> | [-> | [-> | [-> | ->]]]] by lia; tauto.
      * assert (c = 8192 \/ c = 8193 \/ c = 8194 \/ c = 8195 \/ c = 8196
                \/ c = 8197 \/ c = 8198 \/ c = 8199 \/ c = 8200 \/ c = 8201
                \/ c = 8202)%N
          as [-> | [-> | [-> | [-> | [-> | [-> | [-> | [-> | [-> | [-> | ->]]]]]]]]]]
          by lia; tauto.
Qed.

(** On strings of characters below 256 the split the combiners use is the
    split on code points. *)

Lemma codes_app (a b : string) :
  UStr.codes (a +:+ b) = UStr.codes a ++ UStr.codes b.
Proof. induction a as [|c a IH]; cbn; [reflexivity | now rewrite IH]. Qed.

Lemma codes_length (s : string) : length (UStr.codes s) = String.length s.
Proof. induction s as [|c s IH]; cbn; [reflexivity | now rewrite IH]. Qed.

Lemma code_eqb (a b : ascii) :
  N.eqb (N_of_ascii a) (N_of_ascii b) = Ascii.eqb a b.
Proof.
  destruct (Ascii.eqb_spec a b) as [-> | Hne]; [apply N.eqb_refl |].
  apply N.eqb_neq. intros H. apply Hne.
  rewrite <- (ascii_N_embedding a), <- (ascii_N_embedding b). now rewrite H.
Qed.

Lemma codes_startswith (p s : string) :
  UStr.startswith (UStr.codes p) (UStr.codes s) = Str.startswith p s.
Proof.
  revert s. induction p as [|x p IH]; intros s; [reflexivity |].
  destruct s as [|y s]; [reflexivity |]. cbn. rewrite code_eqb.
  destruct (Ascii.eqb x y); [apply IH | reflexivity].
Qed.

Lemma codes_contains (sub s : string) :
  UStr.contains (UStr.codes sub) (UStr.codes s) = Str.contains sub s.
Proof.
  induction s as [|c s IH].
  - cbn [UStr.codes UStr.contains Str.contains].
    now rewrite <- (codes_startswith sub "").
  - cbn [UStr.codes UStr.contains Str.contains]. rewrite IH. f_equal.
    apply (codes_startswith sub (String c s)).
Qed.

Lemma codes_drop (n : nat) (s : string) :
  drop n (UStr.codes s) = UStr.codes (Str.drop n s).
Proof.
  revert s. induction n as [|n IH]; intros s; [now destruct s |].
  destruct s as [|c s]; [reflexivity | apply IH].
Qed.

Lemma codes_split1 (sep s : string) :
  UStr.split1 (UStr.codes sep) (UStr.codes s)
  = map UStr.codes (Str.split1 sep s).
Proof.
  induction s as [|c s IH]; [reflexivity |].
  pose proof (codes_startswith sep (String c s)) as Hst.
  pose proof (codes_drop (String.length sep) (String c s)) as Hdrop.
  cbn [UStr.codes] in Hst, Hdrop.
  cbn [UStr.codes UStr.split1 Str.split1]. rewrite Hst.
  destruct (Str.startswith sep (String c s)).
  - cbn [map]. now rewrite codes_length, Hdrop.
  - rewrite IH. now destruct (Str.split1 sep s).
Qed.

Lemma code_isspace (c : ascii) : UStr.isspace (N_of_ascii c) = Str.isspace c.
Proof. destruct c as [[] [] [] [] [] [] [] []]; reflexivity. Qed.

Lemma codes_lstrip (s : string) :
  UStr.lstrip (UStr.codes s) = UStr.codes (Str.lstrip s).
Proof.
  induction s as [|c s IH]; [reflexivity |].
  cbn [UStr.codes UStr.lstrip Str.lstrip]. rewrite code_isspace.
  now destruct (Str.isspace c).
Qed.

Lemma codes_rstrip (s : string) :
  UStr.rstrip (UStr.codes s) = UStr.codes (Str.rstrip s).
Proof.
  induction s as [|c s IH]; [reflexivity |].
  cbn [UStr.codes UStr.rstrip Str.rstrip]. rewrite IH, code_isspace.
  destruct (Str.rstrip s); [now destruct (Str.isspace c) | reflexivity].
Qed.

Lemma codes_strip (s : string) :
  UStr.strip (UStr.codes s) = UStr.codes (Str.strip s).
Proof. unfold UStr.strip, Str.strip. now rewrite codes_lstrip, codes_rstrip. Qed.

Lemma split_template_advanced_codes (template : string) :
  split_template_advanced_unicode (UStr.codes template)
  = match split_template_advanced template with
    | Ok (g, l) => Ok (UStr.codes g, UStr.codes l)
    | Raise e => Raise e
    end.
Proof.
  unfold split_template_advanced_unicode, split_template_advanced.
  rewrite codes_contains, codes_split1.
  destruct (Str.contains separator template); [| reflexivity].
  destruct (Str.split1 separator template) as [|g [|l [|x rest]]];
    try reflexivity.
  cbn [map]. now rewrite !codes_strip.
Qed.

(** * The split and the pass-through at concrete inputs *)

Lemma split_template_advanced_unicode_witness :
  split_template_advanced_unicode
    ([12288%N] ++ UStr.codes "G {prompt}" ++ [8195%N; 32%N]
     ++ UStr.codes separator
     ++ [160%N] ++ UStr.codes "L {prompt} . x" ++ [10%N])
  = Ok (UStr.codes "G {prompt}", UStr.codes "L {prompt} . x").
Proof.
  refine (proj1 (proj1 (split_template_advanced_unicode_spec _)
                   ([12288%N] ++ UStr.codes "G {prompt}" ++ [8195%N; 32%N])
                   ([160%N] ++ UStr.codes "L {prompt} . x" ++ [10%N])
                   eq_refl _)).
  intros i Hi.
  do 13 (destruct i as [|i]; [reflexivity |]).
  cbn in Hi. lia.
Defined.

(** * Stores that are not lists of records *)


